(** * user_analysis: the customer-analytics pipeline

    A shallow embedding of the two entry points of the repository,

    - [src/mb_task/main.py] (the batch script), module [Main] below, and
    - [src/mb_task/match_bingo_sample_data_analysis.py] (the Streamlit
      dashboard), module [MatchBingo] below,

    together with the part of pandas they call: a [DataFrame] is a mutable
    mapping from column names to columns, [df[k]] raises [KeyError] on an
    absent column, [df[k] = c] writes the column in place.

    Numbers.  pandas computes in binary64.  The pipeline is written once over
    an interface [Float64] of the operations it uses, and read at two
    instances: [binary64], Rocq's primitive IEEE-754 doubles, which is what
    the program runs on, and [exact], the same operations without rounding
    (rationals extended with the two infinities and NaN), which is what the
    formulas mean on paper. *)

From Stdlib Require Import ZArith QArith Qcanon Floats Uint63 Lia List Permutation.
From stdpp Require Import gmap strings list fin_maps sorting.
Import ListNotations.

Local Open Scope string_scope.
Local Open Scope Z_scope.

(** ** Exceptions and results *)

(** A Python exception: the name of its class and its message. *)
Record exn := Exception { exn_class : string; exn_msg : string }.

Definition KeyError (k : string) : exn := Exception "KeyError" k.
Definition ValueError (msg : string) : exn := Exception "ValueError" msg.
Definition TypeError (msg : string) : exn := Exception "TypeError" msg.

Inductive result (A : Type) : Type :=
| Ok (a : A)
| Raise (e : exn).
Arguments Ok {A} a.
Arguments Raise {A} e.

(** ** Time *)

(** A [pd.Timestamp]: nanoseconds since the epoch.  A [pd.Timedelta] is a
    difference of two of them. *)
Abbreviation Timestamp := Z.

Definition ns_per_day : Z := 86400 * 1000000000.

(** [pd.Timedelta(days=n)] *)
Definition Timedelta (days : Z) : Z := days * ns_per_day.

(** [Timedelta.days]: whole days, rounded towards minus infinity. *)
Definition td_days (td : Z) : Z := td / ns_per_day.

(** ** Numbers *)

Class Float64 (F : Type) := {
  f_add : F -> F -> F;
  f_sub : F -> F -> F;
  f_mul : F -> F -> F;
  f_div : F -> F -> F;
  f_of_int : Z -> F;
  f_isnan : F -> bool;
  f_nan : F
}.

(** *** binary64 *)

(** int64 to double ([astype(float64)]), for an [z] in the int64 range. *)
Definition b64_of_int (z : Z) : float :=
  if z <? 0 then PrimFloat.opp (PrimFloat.of_uint63 (Uint63.of_Z (- z)))
  else PrimFloat.of_uint63 (Uint63.of_Z z).

#[export] Instance binary64 : Float64 float := {|
  f_add := PrimFloat.add;
  f_sub := PrimFloat.sub;
  f_mul := PrimFloat.mul;
  f_div := PrimFloat.div;
  f_of_int := b64_of_int;
  f_isnan := PrimFloat.is_nan;
  f_nan := PrimFloat.nan
|}.

(** *** exact arithmetic *)

(** A rational, an infinity with its sign, or NaN: the values of binary64
    arithmetic when no operation rounds.  Zero carries no sign (the pipeline
    only ever divides by [days / 30], whose zero is [+0.0]). *)
Inductive xnum : Type :=
| XFin (q : Qc)
| XInf (neg : bool)
| XNaN.

Definition q_neg (q : Qc) : bool := Qnum (this q) <? 0.
Definition q_is0 (q : Qc) : bool := Qnum (this q) =? 0.

Definition x_add (a b : xnum) : xnum :=
  match a, b with
  | XNaN, _ | _, XNaN => XNaN
  | XFin p, XFin q => XFin (p + q)%Qc
  | XFin _, XInf s | XInf s, XFin _ => XInf s
  | XInf s, XInf t => if Bool.eqb s t then XInf s else XNaN
  end.

Definition x_opp (a : xnum) : xnum :=
  match a with
  | XFin p => XFin (- p)%Qc
  | XInf s => XInf (negb s)
  | XNaN => XNaN
  end.

Definition x_sub (a b : xnum) : xnum := x_add a (x_opp b).

Definition x_mul (a b : xnum) : xnum :=
  match a, b with
  | XNaN, _ | _, XNaN => XNaN
  | XFin p, XFin q => XFin (p * q)%Qc
  | XFin p, XInf s | XInf s, XFin p =>
      if q_is0 p then XNaN else XInf (xorb s (q_neg p))
  | XInf s, XInf t => XInf (xorb s t)
  end.

Definition x_div (a b : xnum) : xnum :=
  match a, b with
  | XNaN, _ | _, XNaN => XNaN
  | XFin p, XFin q =>
      if q_is0 q then (if q_is0 p then XNaN else XInf (q_neg p))
      else XFin (p / q)%Qc
  | XFin _, XInf _ => XFin 0%Qc
  | XInf s, XFin q => XInf (xorb s (q_neg q))
  | XInf _, XInf _ => XNaN
  end.

Definition x_of_int (z : Z) : xnum := XFin (Q2Qc (inject_Z z)).

Definition x_isnan (a : xnum) : bool :=
  match a with XNaN => true | _ => false end.

#[export] Instance exact : Float64 xnum := {|
  f_add := x_add;
  f_sub := x_sub;
  f_mul := x_mul;
  f_div := x_div;
  f_of_int := x_of_int;
  f_isnan := x_isnan;
  f_nan := XNaN
|}.

(** ** pandas: columns and frames *)

(** The labels handed to [pd.qcut]. *)
Inductive label : Type := Q1 | Q2 | Q3 | Q4.

#[export] Instance label_eq_dec : EqDecision label.
Proof. solve_decision. Defined.

Definition labels : list label := [Q1; Q2; Q3; Q4].

(** A column ([pd.Series]) by dtype: datetime64, int64, float64, bool and
    category (a missing category is [None]). *)
Inductive column (F : Type) : Type :=
| Datetimes (l : list Timestamp)
| Ints (l : list Z)
| Floats (l : list F)
| Bools (l : list bool)
| Categories (l : list (option label)).
Arguments Datetimes {F} l.
Arguments Ints {F} l.
Arguments Floats {F} l.
Arguments Bools {F} l.
Arguments Categories {F} l.

(** A [pd.DataFrame]: its index (a [RangeIndex] of [nrows] rows) and its
    columns by name.  The frame is one mutable object; a stage that writes
    to it is a function from its state before the call to its state after. *)
Record DataFrame (F : Type) : Type := Frame {
  nrows : nat;
  columns : gmap string (column F)
}.
Arguments Frame {F} nrows columns.
Arguments nrows {F} d.
Arguments columns {F} d.

(** ** The frame monad: the state of [df], or an exception *)

Definition M (F A : Type) : Type := DataFrame F -> result (A * DataFrame F).

Definition ret {F A} (a : A) : M F A := fun df => Ok (a, df).

Definition bind {F A B} (m : M F A) (k : A -> M F B) : M F B :=
  fun df => match m df with
            | Ok (a, df') => k a df'
            | Raise e => Raise e
            end.

(** a computation that does not touch the frame *)
Definition lift {F A} (r : result A) : M F A :=
  fun df => match r with Ok a => Ok (a, df) | Raise e => Raise e end.

Notation "'let*' x := m 'in' k" := (bind m (fun x => k))
  (at level 10, x name, m at level 100, k at level 200).
Notation "m >>; k" := (bind m (fun _ => k))
  (at level 100, k at level 200, right associativity).

(** [df[k]] *)
Definition getitem {F} (k : string) : M F (column F) :=
  fun df => match columns df !! k with
            | Some c => Ok (c, df)
            | None => Raise (KeyError k)
            end.

(** [df[k] = c], for a column [c] computed over the frame's own index *)
Definition setitem {F} (k : string) (c : column F) : M F unit :=
  fun df => Ok (tt, Frame (nrows df) (<[k := c]> (columns df))).

(** [len(df)] *)
Definition len {F} : M F Z := fun df => Ok (Z.of_nat (nrows df), df).

(** the frame left by a computation *)
Definition exec {F A} (m : M F A) (df : DataFrame F) : result (DataFrame F) :=
  match m df with Ok (_, df') => Ok df' | Raise e => Raise e end.

(** the value returned by a computation *)
Definition value {F A} (m : M F A) (df : DataFrame F) : result A :=
  match m df with Ok (a, _) => Ok a | Raise e => Raise e end.

(** ** pandas: operations on columns *)

Section Series.
Context {F : Type} `{Float64 F}.

(** [pd.to_datetime] on a column the loader has parsed. *)
Definition to_datetime (c : column F) : result (column F) :=
  match c with
  | Datetimes l => Ok (Datetimes l)
  | _ => Raise (TypeError "to_datetime")
  end.

Definition as_datetimes (c : column F) : result (list Timestamp) :=
  match c with
  | Datetimes l => Ok l
  | _ => Raise (TypeError "datetime64 expected")
  end.

(** a numeric column as float64 *)
Definition as_floats (c : column F) : result (list F) :=
  match c with
  | Floats l => Ok l
  | Ints l => Ok (map f_of_int l)
  | _ => Raise (TypeError "numeric dtype expected")
  end.

Definition as_ints (c : column F) : result (list Z) :=
  match c with
  | Ints l => Ok l
  | _ => Raise (TypeError "int64 expected")
  end.

Definition as_bools (c : column F) : result (list bool) :=
  match c with
  | Bools l => Ok l
  | _ => Raise (TypeError "bool expected")
  end.

Definition as_categories (c : column F) : result (list (option label)) :=
  match c with
  | Categories l => Ok l
  | _ => Raise (TypeError "category expected")
  end.

(** [a - b] on two datetime columns, then [.dt.days] *)
Definition sub_dt_days (a b : column F) : result (column F) :=
  match as_datetimes a, as_datetimes b with
  | Ok la, Ok lb => Ok (Ints (zip_with (fun x y => td_days (x - y)) la lb))
  | Raise e, _ | _, Raise e => Raise e
  end.

(** [t - b] for a timestamp and a datetime column, then [.dt.days] *)
Definition rsub_dt_days (t : Timestamp) (b : column F) : result (column F) :=
  match as_datetimes b with
  | Ok lb => Ok (Ints (map (fun y => td_days (t - y)) lb))
  | Raise e => Raise e
  end.

(** [.clip(lower=lo)] on an int64 column *)
Definition clip_lower (lo : Z) (c : column F) : result (column F) :=
  match as_ints c with
  | Ok l => Ok (Ints (map (Z.max lo) l))
  | Raise e => Raise e
  end.

(** [c / n] for a number [n]: true division, in float64 *)
Definition truediv_scalar (c : column F) (n : Z) : result (column F) :=
  match as_floats c with
  | Ok l => Ok (Floats (map (fun x => f_div x (f_of_int n)) l))
  | Raise e => Raise e
  end.

(** [a / b], element by element *)
Definition truediv (a b : column F) : result (column F) :=
  match as_floats a, as_floats b with
  | Ok la, Ok lb => Ok (Floats (zip_with f_div la lb))
  | Raise e, _ | _, Raise e => Raise e
  end.

(** [a * b], element by element *)
Definition mul (a b : column F) : result (column F) :=
  match as_floats a, as_floats b with
  | Ok la, Ok lb => Ok (Floats (zip_with f_mul la lb))
  | Raise e, _ | _, Raise e => Raise e
  end.

(** [c < t] for a datetime column and a timestamp *)
Definition lt_timestamp (c : column F) (t : Timestamp) : result (column F) :=
  match as_datetimes c with
  | Ok l => Ok (Bools (map (fun x => x <? t) l))
  | Raise e => Raise e
  end.

(** [Series.sum()] of a bool column: how many are [True] *)
Definition sum_bools (c : column F) : result Z :=
  match as_bools c with
  | Ok l => Ok (Z.of_nat (length (List.filter id l)))
  | Raise e => Raise e
  end.

(** *** [ndarray.sum()]

    numpy's pairwise summation of a contiguous float64 array
    ([DOUBLE_pairwise_sum]).  Below 8 elements the sum is taken from zero,
    left to right.  Up to 128 elements the first eight open eight running
    sums, every further full block of eight is added to them lane by lane,
    the eight are added as a balanced tree, and the elements after the last
    full block are added to that, left to right.  A longer array is split
    at half its length, rounded down to a multiple of eight, and the sums
    of the two parts are added.  (The sign of a sum that is zero is not
    modelled.) *)
Definition seq_sum (a : list F) (acc : F) : F := fold_left f_add a acc.

Fixpoint lanes_sum (r a : list F) (blocks : nat) : list F :=
  match blocks with
  | O => r
  | S blocks' =>
      lanes_sum (zip_with f_add r (firstn 8 a)) (skipn 8 a) blocks'
  end.

Definition lanes_total (r : list F) : F :=
  match r with
  | [r0; r1; r2; r3; r4; r5; r6; r7] =>
      f_add (f_add (f_add r0 r1) (f_add r2 r3))
            (f_add (f_add r4 r5) (f_add r6 r7))
  | _ => seq_sum r (f_of_int 0)
  end.

(** for [8 <= len(a) <= 128] *)
Definition block_sum (a : list F) : F :=
  let n := length a in
  let r := lanes_sum (firstn 8 a) (skipn 8 a) (n / 8 - 1) in
  seq_sum (skipn (8 * (n / 8)) a) (lanes_total r).

(** [fuel] bounds the depth of the splitting; the length of the array is
    enough, every split halving it. *)
Fixpoint pairwise_sum_rec (fuel : nat) (a : list F) : F :=
  let n := length a in
  if (n <? 8)%nat then seq_sum a (f_of_int 0)
  else if (n <=? 128)%nat then block_sum a
  else match fuel with
       | O => block_sum a
       | S fuel' =>
           let n2 := (n / 2 - (n / 2) mod 8)%nat in
           f_add (pairwise_sum_rec fuel' (firstn n2 a))
                 (pairwise_sum_rec fuel' (skipn n2 a))
       end.

Definition pairwise_sum (a : list F) : F := pairwise_sum_rec (length a) a.

(** *** [Series.mean()]

    [nanops.nanmean], as it runs without the optional bottleneck library:
    NaN entries are replaced by zero and left out of the count; the sum is
    [ndarray.sum()]; no valid entry gives NaN. *)
Definition nansum (l : list F) : F :=
  pairwise_sum (map (fun x => if f_isnan x then f_of_int 0 else x) l).

Definition count (l : list F) : nat :=
  length (List.filter (fun x => negb (f_isnan x)) l).

Definition mean_of (l : list F) : F :=
  if (count l =? 0)%nat then f_nan
  else f_div (nansum l) (f_of_int (Z.of_nat (count l))).

Definition mean (c : column F) : result F :=
  match as_floats c with
  | Ok l => Ok (mean_of l)
  | Raise e => Raise e
  end.

End Series.

(** ** pandas: [qcut] *)

(** The [duplicates] argument of [pd.qcut]. *)
Inductive duplicates : Type := dup_raise | dup_drop.

(** [Series.quantile(k/4)] with linear interpolation, on the sorted values
    of an int64 column, times four: at the virtual index [(n-1)*k/4], with
    [j] its integer part and [r/4] its fraction, the quantile is
    [a_j + (a_(j+1) - a_j) * r/4].  Four times that is an integer, and
    binary64, in which pandas computes the quantile, gives it without
    rounding while the values are within [in_float_range]; beyond, the
    edges of pandas are rounded and can coincide where these do not.  An
    empty column has NaN for every quantile, here [None]. *)
Definition quantile4 (sorted : list Z) (k : nat) : option Z :=
  match sorted with
  | [] => None
  | _ :: _ =>
      let n := length sorted in
      let pos := ((n - 1) * k)%nat in
      let j := (pos / 4)%nat in
      let r := Z.of_nat (pos mod 4) in
      let a := nth j sorted 0 in
      let b := nth (Nat.min (j + 1) (n - 1)) sorted 0 in
      Some (4 * a + (b - a) * r)
  end.

(** The columns whose quartile edges binary64 computes without rounding:
    with every value between -2^50 and 2^50, the differences of two
    values, their multiples of a quarter and the sums with a value all fit
    the 53 bits of the mantissa.  What is stated about a bucketing stage
    returning is stated for these columns. *)
Definition in_float_range (x : list Z) : bool :=
  forallb (fun v => (- 2 ^ 50 <=? v) && (v <=? 2 ^ 50)) x.

(** the five edges for [q = 4]: quantiles 0, 1/4, 1/2, 3/4 and 1 *)
Definition quartile_edges (x : list Z) : list (option Z) :=
  map (quantile4 (merge_sort Z.le x)) (seq 0 5).

(** [edge < x] and [x == edge], an edge being four times its value; every
    comparison with NaN is false *)
Definition edge_lt (e : option Z) (x : Z) : bool :=
  match e with Some e4 => e4 <? 4 * x | None => false end.

Definition edge_eq (e : option Z) (x : Z) : bool :=
  match e with Some e4 => e4 =? 4 * x | None => false end.

(** [bins.searchsorted(x, side="left")] on sorted [bins]: how many edges
    lie strictly below [x] *)
Fixpoint searchsorted (bins : list (option Z)) (x : Z) : nat :=
  match bins with
  | [] => 0
  | e :: bins' => if edge_lt e x then S (searchsorted bins' x) else 0
  end.

(** [_bins_to_cuts] with [right=True, include_lowest=True]: the index of
    the interval of [x], 0 standing for "in none" *)
Definition bin_id (bins : list (option Z)) (x : Z) : nat :=
  let i := match bins with
           | e0 :: _ => if edge_eq e0 x then 1%nat else searchsorted bins x
           | [] => searchsorted bins x
           end in
  if (i =? length bins)%nat || (i =? 0)%nat then 0%nat else i.

(** [pd.qcut(x, 4, labels=lbls, duplicates=dup)].  The edges are sorted, so
    dropping the duplicates leaves the same list whichever copy is kept. *)
Definition qcut (x : list Z) (lbls : list label) (dup : duplicates)
  : result (list (option label)) :=
  let bins := quartile_edges x in
  let unique_bins := remove_dups bins in
  let checked :=
    if (length unique_bins <? length bins)%nat && negb (length bins =? 2)%nat
    then match dup with
         | dup_raise => Raise (ValueError "Bin edges must be unique")
         | dup_drop => Ok unique_bins
         end
    else Ok bins in
  match checked with
  | Raise e => Raise e
  | Ok bins =>
      let ids := map (bin_id bins) x in
      if (length lbls =? length bins - 1)%nat
      then Ok (map (fun i => match i with
                             | O => None
                             | S i' => lbls !! i'
                             end) ids)
      else Raise (ValueError
                    "Bin labels must be one fewer than the number of bin edges")
  end.

(** ** pandas: [groupby(...)[col].mean()] on a categorical key *)

Section GroupBy.
Context {F : Type} `{Float64 F}.

(** What one pass over the rows accumulates for a category
    ([libgroupby.group_mean]): its rows, those whose value is not NaN,
    their sum and the compensation of Kahan's summation. *)
Record group : Type :=
  Group { g_rows : nat; g_nobs : nat; g_sum : F; g_comp : F }.

Definition group0 : group := Group 0 0 (f_of_int 0) (f_of_int 0).

(** A value that is not NaN is added with the compensation taken off, and
    the compensation becomes what the addition has lost; a compensation
    that comes out NaN, as it does once an infinity is added, is reset to
    zero (pandas 2). *)
Definition group_add (g : group) (v : F) : group :=
  if f_isnan v then Group (S (g_rows g)) (g_nobs g) (g_sum g) (g_comp g)
  else
    let y := f_sub v (g_comp g) in
    let t := f_add (g_sum g) y in
    let c := f_sub (f_sub t (g_sum g)) y in
    Group (S (g_rows g)) (S (g_nobs g)) t
          (if f_isnan c then f_of_int 0 else c).

(** a row goes to the group of its category; a row without category to none *)
Definition group_step (gs : label -> group) (row : option label * F)
  : label -> group :=
  match row with
  | (Some q, v) => fun q' => if decide (q' = q) then group_add (gs q) v else gs q'
  | (None, _) => gs
  end.

Definition group_rows (cats : list (option label)) (vals : list F)
  : label -> group :=
  fold_left group_step (zip cats vals) (fun _ => group0).

Definition group_mean (g : group) : F :=
  if (g_nobs g =? 0)%nat then f_nan
  else f_div (g_sum g) (f_of_int (Z.of_nat (g_nobs g))).

(** the mean that a group made of the values [l] gets *)
Definition group_mean_of (l : list F) : F :=
  group_mean (fold_left group_add l group0).

(** One entry per category, in the order of the categories; with
    [observed] a category without rows has no entry, without it its mean
    is NaN. *)
Definition groupby_mean (observed : bool)
    (cats : list (option label)) (vals : list F) : list (label * F) :=
  let gs := group_rows cats vals in
  omap (fun q => if observed && (g_rows (gs q) =? 0)%nat then None
                 else Some (q, group_mean (gs q))) labels.

(** [Series.reindex(idx)]: the entries at [idx], NaN where there is none *)
Definition reindex (s : list (label * F)) (idx : list label)
  : list (label * F) :=
  map (fun q => (q, match list_find (fun e => e.1 = q) s with
                    | Some (_, (_, v)) => v
                    | None => f_nan
                    end)) idx.

End GroupBy.

(** ** The loader *)

(** A row of the input file, its two date columns parsed. *)
Record UserRecord (F : Type) : Type := User {
  date_joined : Timestamp;
  last_login_date : Timestamp;
  total_deposit : F;
  total_games_played : Z
}.
Arguments User {F} _ _ _ _.
Arguments date_joined {F} u.
Arguments last_login_date {F} u.
Arguments total_deposit {F} u.
Arguments total_games_played {F} u.

(** [pd.read_excel(file)] / [pd.read_csv(file)] on a file that holds the
    four columns of the sample data and no others, its dates parsed: the
    frame of these four columns.  Files with further columns, or without
    one of the four, are not modelled. *)
Definition read_file {F} (file : list (UserRecord F)) : DataFrame F :=
  Frame (length file)
    (<["date_joined" := Datetimes (map date_joined file)]>
     (<["last_login_date" := Datetimes (map last_login_date file)]>
      (<["total_deposit" := Floats (map total_deposit file)]>
       (<["total_games_played" := Ints (map total_games_played file)]> ∅)))).

(** ** src/mb_task/main.py *)

Module Main.

(** What [main] shows, in order: the histogram of join dates, the bar
    chart of the quartile means, the markdown table of [describe()], and
    the two lines of [present]. *)
Inductive output (F : Type) : Type :=
| Histogram (dates : column F) (bins : nat)
| BarChart (summary : list (label * F))
| MarkdownTable (df : DataFrame F)
| Presented (avg_clv : F) (num_churned : Z) (n : Z) (churn_rate : F).
Arguments Histogram {F} dates bins.
Arguments BarChart {F} summary.
Arguments MarkdownTable {F} df.
Arguments Presented {F} avg_clv num_churned n churn_rate.

Section Pipeline.
Context {F : Type} `{Float64 F}.

Definition read_data_and_prepare (file : list (UserRecord F))
  : result (DataFrame F) :=
  exec
    (let* c := getitem "date_joined" in
     let* c := lift (to_datetime c) in
     setitem "date_joined" c >>;
     let* c := getitem "last_login_date" in
     let* c := lift (to_datetime c) in
     setitem "last_login_date" c >>;
     let* a := getitem "last_login_date" in
     let* b := getitem "date_joined" in
     let* d := lift (sub_dt_days a b) in
     setitem "cust_lifetime_days" d >>;
     let* d := getitem "cust_lifetime_days" in
     let* m := lift (truediv_scalar d 30) in
     setitem "cust_lifetime_months" m >>;
     let* t := getitem "total_deposit" in
     let* m := getitem "cust_lifetime_months" in
     let* r := lift (truediv t m) in
     setitem "monthly_revenue" r)
    (read_file file).

Definition calculate_avg_clv : M F F :=
  let* r := getitem "monthly_revenue" in
  let* m := getitem "cust_lifetime_months" in
  let* p := lift (mul r m) in
  lift (mean p).

(** [today] is what [pd.Timestamp.today()] reads off the wall clock. *)
Definition identify_churn_users (today : Timestamp) (cutoff_days : Z)
  : M F unit :=
  let cutoff_date := today - Timedelta cutoff_days in
  let* l := getitem "last_login_date" in
  let* c := lift (lt_timestamp l cutoff_date) in
  setitem "churned" c.

(** [observed_default] is the library's default for [groupby(observed=)],
    which the call leaves unset: [false] in pandas 1 and 2. *)
Definition user_segmentation (observed_default : bool)
  : M F (list (label * F)) :=
  let* g := getitem "total_games_played" in
  let* x := lift (as_ints g) in
  let* cats := lift (qcut x labels dup_raise) in
  setitem "games_played_quartile" (Categories cats) >>;
  let* k := getitem "games_played_quartile" in
  let* cats := lift (as_categories k) in
  let* d := getitem "total_deposit" in
  let* vals := lift (as_floats d) in
  ret (groupby_mean observed_default cats vals).

(** Lines 99 to 104 of [main]: everything it computes. *)
Definition metrics (today : Timestamp) (observed_default : bool)
  : M F (F * Z * F * list (label * F)) :=
  let* avg_clv := calculate_avg_clv in
  identify_churn_users today 30 >>;
  let* c := getitem "churned" in
  let* num_churned := lift (sum_bools c) in
  let* n := len in
  let churn_rate := f_div (f_of_int num_churned) (f_of_int n) in
  let* seg := user_segmentation observed_default in
  ret (avg_clv, num_churned, churn_rate, seg).

(** The four statements that show something.  The charts and the table are
    drawn by matplotlib and tabulate; what is recorded is the data they are
    given. *)
Definition plot_join_date_distribution (bins : nat) : M F (output F) :=
  let* j := getitem "date_joined" in
  ret (Histogram j bins).

Definition plot_quartile_deposits (quartile_summary : list (label * F))
  : output F :=
  BarChart quartile_summary.

Definition summarise_fields : M F (output F) :=
  fun df => Ok (MarkdownTable df, df).

Definition present (avg_clv : F) (num_churned : Z) (churn_rate : F)
  : M F (output F) :=
  let* n := len in
  ret (Presented avg_clv num_churned n churn_rate).

(** [main()]: what was shown, in order, and how the run ended.  [today] is
    the reading of the wall clock; the file at the fixed path is [file]. *)
Definition main (today : Timestamp) (observed_default : bool)
    (file : list (UserRecord F)) : list (output F) * result unit :=
  match read_data_and_prepare file with
  | Raise e => ([], Raise e)
  | Ok df =>
  match metrics today observed_default df with
  | Raise e => ([], Raise e)
  | Ok ((avg_clv, num_churned, churn_rate, seg), df) =>
  match plot_join_date_distribution 6 df with
  | Raise e => ([], Raise e)
  | Ok (o1, df) =>
  let o2 := plot_quartile_deposits seg in
  match summarise_fields df with
  | Raise e => ([o1; o2], Raise e)
  | Ok (o3, df) =>
  match present avg_clv num_churned churn_rate df with
  | Raise e => ([o1; o2; o3], Raise e)
  | Ok (o4, _) => ([o1; o2; o3; o4], Ok tt)
  end end end end end.

End Pipeline.
End Main.

(** ** src/mb_task/match_bingo_sample_data_analysis.py *)

Module MatchBingo.

(** What the page shows below the sidebar, in order. *)
Inductive widget (F : Type) : Type :=
| Title
| Info
| MetricCohort (n : Z)
| MetricCLV (avg_clv : F)
| MetricInactive (inactive : Z) (n : Z) (share : F)
| BarPlot (q_deposits : list (label * F))
| DescribeTable (df : DataFrame F)
| RawTable (df : DataFrame F).
Arguments Title {F}.
Arguments Info {F}.
Arguments MetricCohort {F} n.
Arguments MetricCLV {F} avg_clv.
Arguments MetricInactive {F} inactive n share.
Arguments BarPlot {F} q_deposits.
Arguments DescribeTable {F} df.
Arguments RawTable {F} df.

(** [st.session_state[k]] *)
Definition session_get (session_state : gmap string Timestamp) (k : string)
  : result Timestamp :=
  match session_state !! k with
  | Some t => Ok t
  | None => Raise (KeyError k)
  end.

Section Pipeline.
Context {F : Type} `{Float64 F}.

Definition read_data_and_prepare (session_state : gmap string Timestamp)
    (file : list (UserRecord F)) : result (DataFrame F) :=
  exec
    (let* c := getitem "date_joined" in
     let* c := lift (to_datetime c) in
     setitem "date_joined" c >>;
     let* c := getitem "last_login_date" in
     let* c := lift (to_datetime c) in
     setitem "last_login_date" c >>;
     let* today := lift (session_get session_state "as_of_ts") in
     let* j := getitem "date_joined" in
     let* d := lift (rsub_dt_days today j) in
     let* d := lift (clip_lower 1 d) in
     setitem "lifetime_days" d >>;
     let* d := getitem "lifetime_days" in
     let* m := lift (truediv_scalar d 30) in
     setitem "lifetime_months" m >>;
     let* t := getitem "total_deposit" in
     let* m := getitem "lifetime_months" in
     let* r := lift (truediv t m) in
     setitem "monthly_revenue" r)
    (read_file file).

Definition calculate_avg_clv : M F F :=
  let* r := getitem "monthly_revenue" in
  let* mr := lift (mean r) in
  let* m := getitem "cust_lifetime_months" in
  let* mm := lift (mean m) in
  ret (f_mul mr mm).

Definition tag_churn (session_state : gmap string Timestamp) (cut_off : Z)
  : M F unit :=
  let* as_of_ts := lift (session_get session_state "as_of_ts") in
  let limit := as_of_ts - Timedelta cut_off in
  let* l := getitem "last_login_date" in
  let* c := lift (lt_timestamp l limit) in
  setitem "churned" c.

Definition quartile_summary : M F (list (label * F)) :=
  let* g := getitem "total_games_played" in
  let* x := lift (as_ints g) in
  let* cats := lift (qcut x labels dup_drop) in
  setitem "games_quartile" (Categories cats) >>;
  let* k := getitem "games_quartile" in
  let* cats := lift (as_categories k) in
  let* d := getitem "total_deposit" in
  let* vals := lift (as_floats d) in
  ret (reindex (groupby_mean true cats vals) labels).

(** Lines 79 to 82 of the script. *)
Definition metrics (session_state : gmap string Timestamp)
    (cutoff_days : Z) : M F (F * list (label * F)) :=
  tag_churn session_state cutoff_days >>;
  let* avg_clv := calculate_avg_clv in
  let* q_deposits := quartile_summary in
  ret (avg_clv, q_deposits).

(** Lines 84 to 129. *)
Definition show (avg_clv : F) (q_deposits : list (label * F))
  : M F (list (widget F)) :=
  let* n := len in
  let* c := getitem "churned" in
  let* inactive := lift (sum_bools c) in
  fun df => Ok ([MetricCohort n; MetricCLV avg_clv;
                 MetricInactive inactive n
                   (f_div (f_of_int inactive) (f_of_int n));
                 BarPlot q_deposits; DescribeTable df; RawTable df], df).

(** One run of the script: [session_state] is what the session holds
    when the run starts, [as_of] the date picked in the sidebar (in days
    since the epoch; [pd.Timestamp(as_of)] is its midnight),
    [cutoff_days] the slider and [uploaded_file] the upload, if any. *)
Definition script (session_state : gmap string Timestamp)
    (as_of : Z) (cutoff_days : Z)
    (uploaded_file : option (list (UserRecord F)))
  : list (widget F) * result unit :=
  let session_state := <["as_of_ts" := as_of * ns_per_day]> session_state in
  match uploaded_file with
  | None => ([Title; Info], Ok tt)
  | Some file =>
      match read_data_and_prepare session_state file with
      | Raise e => ([Title], Raise e)
      | Ok df =>
          match metrics session_state cutoff_days df with
          | Raise e => ([Title], Raise e)
          | Ok ((avg_clv, q_deposits), df) =>
              match show avg_clv q_deposits df with
              | Raise e => ([Title], Raise e)
              | Ok (ws, _) => (Title :: ws, Ok tt)
              end
          end
      end
  end.

End Pipeline.
End MatchBingo.

(** ** Vocabulary of the statements *)

Section Vocabulary.
Context {F : Type} `{Float64 F}.

(** *** The derived fields, row by row *)

(** main.py, lines 24 to 26 *)
Definition batch_days (u : UserRecord F) : Z :=
  td_days (last_login_date u - date_joined u).
Definition batch_months (u : UserRecord F) : F :=
  f_div (f_of_int (batch_days u)) (f_of_int 30).
Definition batch_revenue (u : UserRecord F) : F :=
  f_div (total_deposit u) (batch_months u).

(** match_bingo_sample_data_analysis.py, lines 28 to 30 *)
Definition app_days (as_of_ts : Timestamp) (u : UserRecord F) : Z :=
  Z.max 1 (td_days (as_of_ts - date_joined u)).
Definition app_months (as_of_ts : Timestamp) (u : UserRecord F) : F :=
  f_div (f_of_int (app_days as_of_ts u)) (f_of_int 30).
Definition app_revenue (as_of_ts : Timestamp) (u : UserRecord F) : F :=
  f_div (total_deposit u) (app_months as_of_ts u).

(** The frame each derivation stage leaves, column by column, in the
    order the stage writes them. *)
Definition batch_derived (file : list (UserRecord F)) : DataFrame F :=
  Frame (length file)
    (<["monthly_revenue" := Floats (map batch_revenue file)]>
     (<["cust_lifetime_months" := Floats (map batch_months file)]>
      (<["cust_lifetime_days" := Ints (map batch_days file)]>
       (<["last_login_date" := Datetimes (map last_login_date file)]>
        (<["date_joined" := Datetimes (map date_joined file)]>
         (columns (read_file file))))))).

Definition app_derived (as_of_ts : Timestamp) (file : list (UserRecord F))
  : DataFrame F :=
  Frame (length file)
    (<["monthly_revenue" := Floats (map (app_revenue as_of_ts) file)]>
     (<["lifetime_months" := Floats (map (app_months as_of_ts) file)]>
      (<["lifetime_days" := Ints (map (app_days as_of_ts) file)]>
       (<["last_login_date" := Datetimes (map last_login_date file)]>
        (<["date_joined" := Datetimes (map date_joined file)]>
         (columns (read_file file))))))).

(** *** The CLV of a file: derivation, then the estimator *)

Definition batch_clv (file : list (UserRecord F)) : result F :=
  match Main.read_data_and_prepare file with
  | Ok df => value Main.calculate_avg_clv df
  | Raise e => Raise e
  end.

Definition app_clv (session_state : gmap string Timestamp)
    (file : list (UserRecord F)) : result F :=
  match MatchBingo.read_data_and_prepare session_state file with
  | Ok df => value MatchBingo.calculate_avg_clv df
  | Raise e => Raise e
  end.

(** *** Buckets *)

(** the deposits of the rows in bucket [q], in row order *)
Definition members (q : label) (cats : list (option label)) (vals : list F)
  : list F :=
  map snd (List.filter (fun row => bool_decide (row.1 = Some q))
                       (zip cats vals)).

(** the bucket of a value, given the edges: what [qcut] assigns when it
    returns *)
Definition bucket_of (bins : list (option Z)) (v : Z) : option label :=
  match bin_id bins v with O => None | S i => labels !! i end.

(** how many rows are in bucket [q] *)
Definition population (q : label) (cats : list (option label)) : nat :=
  length (List.filter (fun c => bool_decide (c = Some q)) cats).

(** how many buckets have a row *)
Definition buckets (cats : list (option label)) : nat :=
  length (List.filter (fun q => (0 <? population q cats)%nat) labels).

(** What the specification asks of quartile bucketing, for a stage that
    writes its buckets to the column [col] of the frame [df]. *)
Definition bucketing_invariant (stage : M F (list (label * F)))
    (col : string) (df : DataFrame F) : Prop :=
  exists s df' cats,
    stage df = Ok (s, df')
    /\ columns df' !! col = Some (Categories cats)
    /\ length cats = nrows df
    /\ (1 <= buckets cats <= 4)%nat
    /\ (population Q1 cats + population Q2 cats
        + population Q3 cats + population Q4 cats = nrows df)%nat
    /\ (forall i q q', cats !! i = Some (Some q) ->
                       cats !! i = Some (Some q') -> q = q').

(** *** Effects on the frame *)

(** What a stage does to the frame it is run on, whenever it returns: with
    [written = None] nothing at all; with [written = Some k] it writes the
    column [k] and leaves the row count and every other column as they
    were. *)
Definition frame_effect {A} (stage : M F A) (written : option string)
  : Prop :=
  forall df a df', stage df = Ok (a, df') ->
    match written with
    | None => df' = df
    | Some k0 =>
        nrows df' = nrows df
        /\ is_Some (columns df' !! k0)
        /\ forall k, k <> k0 -> columns df' !! k = columns df !! k
    end.

(** the summary with one entry per label, Q1 to Q4: the mean deposit of
    the bucket's rows, NaN for a bucket without rows *)
Definition summary_of (cats : list (option label)) (vals : list F)
  : list (label * F) :=
  map (fun q => (q, group_mean_of (members q cats vals))) labels.

End Vocabulary.

(** the churn counts printed by a run of the batch script *)
Definition churned_shown {F} (run : list (Main.output F) * result unit)
  : list Z :=
  omap (fun o => match o with
                 | Main.Presented _ n _ _ => Some n
                 | _ => None
                 end) run.1.

(** *** Sample files *)

Definition day (n : Z) : Timestamp := n * ns_per_day.

(** tenths, as the loader reads them: the binary64 nearest to [n / 10] *)
Definition tenths (n : Z) : float := PrimFloat.div (b64_of_int n) 10%float.

(** the deposits 0.3, 0.4 and 0.6 *)
Definition three_deposits : list float := map tenths [3; 4; 6].

(** nine deposits *)
Definition nine_deposits : list float :=
  map tenths [595; 68; 621; 14; 931; 858; 481; 266; 565].

(** noon of day [n] *)
Definition noon (n : Z) : Timestamp := day n + 12 * 3600 * 1000000000.

(** a customer whose last login is at midnight of day 60 *)
Definition boundary_user : list (UserRecord float) :=
  [User (day 0) (day 60) 10%float 5].

(** two customers, one month and two months of lifetime *)
Definition two_users : list (UserRecord float) :=
  [User (day 0) (day 30) 30%float 10; User (day 0) (day 60) 120%float 20].

(** a customer whose last login is on the day of joining *)
Definition same_day_user : list (UserRecord float) :=
  [User (day 100) (day 100) 10%float 5].

(** a customer with nine days of lifetime *)
Definition nine_day_user : list (UserRecord float) :=
  [User (day 0) (day 9) 100%float 3].

(** ten customers who have played 1 to 10 games and deposited as much *)
Definition ten_users : list (UserRecord float) :=
  map (fun g => User (day 0) (day 30) (b64_of_int g) g)
      [5; 1; 2; 9; 3; 4; 7; 8; 6; 10].

(** their buckets for the edges 1, 3.25, 5.5, 7.75 and 10, and the mean
    deposit of each bucket *)
Definition ten_users_buckets : list (option label) :=
  [Some Q2; Some Q1; Some Q1; Some Q4; Some Q1;
   Some Q2; Some Q3; Some Q4; Some Q3; Some Q4].


(** five customers of whom four have played once *)
Definition tied_users : list (UserRecord float) :=
  map (fun g => User (day 0) (day 30) (b64_of_int g) g) [1; 1; 1; 1; 2].

(** three customers with nine days of lifetime each, in two orders *)
Definition nine_day_users : list (UserRecord float) :=
  [User (day 0) (day 9) 50%float 1; User (day 0) (day 9) 50%float 2;
   User (day 0) (day 9) 20%float 3].

Definition nine_day_users_reordered : list (UserRecord float) :=
  [User (day 0) (day 9) 20%float 3; User (day 0) (day 9) 50%float 1;
   User (day 0) (day 9) 50%float 2].

(** the same two customers in exact arithmetic *)
Definition two_users_exact : list (UserRecord xnum) :=
  [User (day 0) (day 30) (x_of_int 30) 10;
   User (day 0) (day 60) (x_of_int 120) 20].

(** the same two customers in the other order *)
Definition two_users_exact_swapped : list (UserRecord xnum) :=
  [User (day 0) (day 60) (x_of_int 120) 20;
   User (day 0) (day 30) (x_of_int 30) 10].

(** a binary64 result by its sign, mantissa and exponent, to tell two of
    them apart *)
Definition float_bits (r : result float) : option SpecFloat.spec_float :=
  match r with Ok v => Some (Prim2SF v) | Raise _ => None end.

(** the sum of a list in exact arithmetic, from the right *)
Definition x_sum (a : list xnum) : xnum := fold_right x_add (x_of_int 0) a.

(** *** Vocabulary of the further properties *)

(** how many entries a column has *)
Definition column_len {F} (c : column F) : nat :=
  match c with
  | Datetimes l => length l
  | Ints l => length l
  | Floats l => length l
  | Bools l => length l
  | Categories l => length l
  end.

(** every column has one entry per row of the index *)
Definition well_formed {F} (df : DataFrame F) : Prop :=
  forall k c, columns df !! k = Some c -> column_len c = nrows df.

(** a stage that returns leaves a well-formed frame well-formed *)
Definition keeps_well_formed {F A} (stage : M F A) : Prop :=
  forall df a df', well_formed df -> stage df = Ok (a, df') -> well_formed df'.

(** the records whose last login is more than 30 days before [today] *)
Definition churned_users {F} (today : Timestamp) (file : list (UserRecord F))
  : list (UserRecord F) :=
  List.filter (fun u => last_login_date u <? today - Timedelta 30) file.

(** the table of the batch script once its three metric stages have run *)
Definition batch_table {F} `{Float64 F} (today : Timestamp)
    (file : list (UserRecord F)) : DataFrame F :=
  Frame (length file)
    (<["games_played_quartile" :=
         Categories (map (bucket_of (quartile_edges
                                       (map total_games_played file)))
                         (map total_games_played file))]>
       (<["churned" :=
            Bools (map (fun u => last_login_date u <? today - Timedelta 30)
                       file)]>
          (columns (batch_derived file)))).

(** the order of the labels *)
Definition label_rank (q : label) : nat :=
  match q with Q1 => 1 | Q2 => 2 | Q3 => 3 | Q4 => 4 end.

Definition bucket_rank (c : option label) : nat :=
  match c with Some q => label_rank q | None => 0 end.

(** the quartile interval of a value for the inner edges [e1 < e2 < e3]
    (each four times its value): up to [e1], up to [e2], up to [e3],
    beyond *)
Definition interval_label (e1 e2 e3 : Z) (v : Z) : label :=
  if 4 * v <=? e1 then Q1
  else if 4 * v <=? e2 then Q2
  else if 4 * v <=? e3 then Q3 else Q4.

(** the stage has returned on [df] and written the buckets [cats] to the
    column [col] *)
Definition writes_buckets {F} (stage : M F (list (label * F))) (col : string)
    (df : DataFrame F) (cats : list (option label)) : Prop :=
  exists s df',
    stage df = Ok (s, df') /\ columns df' !! col = Some (Categories cats).

(** one of the two bucketing stages has returned on [df], having read the
    games played [x] and written the buckets [cats] *)
Definition bucketing {F} `{Float64 F} (df : DataFrame F) (x : list Z)
    (cats : list (option label)) : Prop :=
  columns df !! "total_games_played" = Some (Ints x)
  /\ ((exists obs, writes_buckets (Main.user_segmentation obs)
                     "games_played_quartile" df cats)
      \/ writes_buckets MatchBingo.quartile_summary "games_quartile" df cats).

(** * Facts *)

(** ** Running the derivation stages *)

Lemma zip_with_map {A B C D} (f : B -> C -> D) (g : A -> B) (h : A -> C)
    (l : list A) :
  zip_with f (map g l) (map h l) = map (fun a => f (g a) (h a)) l.
Proof. induction l as [|a l IH]; simpl; congruence. Qed.

(** look a column up in a frame built by writes to named columns *)
Ltac lookup_columns :=
  repeat (rewrite ?lookup_insert_eq; rewrite ?lookup_insert_ne by done;
          rewrite ?lookup_empty; cbn [columns nrows]).

Ltac run_stage :=
  unfold exec, value, bind, ret, getitem, setitem, lift, len;
  cbn [columns nrows]; lookup_columns.

Section Derivation.
Context {F : Type} `{Float64 F}.

Lemma batch_read_data_and_prepare (file : list (UserRecord F)) :
  Main.read_data_and_prepare file = Ok (batch_derived file).
Proof.
  unfold Main.read_data_and_prepare, read_file. run_stage.
  cbn [to_datetime]. lookup_columns. cbn [to_datetime]. lookup_columns.
  cbn [sub_dt_days as_datetimes]. lookup_columns.
  cbn [truediv_scalar as_floats]. lookup_columns. cbn [truediv as_floats].
  rewrite (zip_with_map (fun x y : Z => td_days (x - y))
             last_login_date date_joined).
  rewrite !map_map. rewrite (zip_with_map f_div). reflexivity.
Qed.

Lemma app_read_data_and_prepare (ss : gmap string Timestamp)
    (as_of_ts : Timestamp) (file : list (UserRecord F)) :
  ss !! "as_of_ts" = Some as_of_ts ->
  MatchBingo.read_data_and_prepare ss file = Ok (app_derived as_of_ts file).
Proof.
  intros Hss.
  unfold MatchBingo.read_data_and_prepare, MatchBingo.session_get, read_file.
  run_stage. cbn [to_datetime]. lookup_columns. cbn [to_datetime].
  lookup_columns. rewrite Hss. lookup_columns.
  cbn [rsub_dt_days as_datetimes clip_lower as_ints]. lookup_columns.
  cbn [truediv_scalar as_floats]. lookup_columns. cbn [truediv as_floats].
  rewrite !map_map. rewrite (zip_with_map f_div). reflexivity.
Qed.

Lemma app_read_no_as_of (ss : gmap string Timestamp)
    (file : list (UserRecord F)) :
  ss !! "as_of_ts" = None ->
  MatchBingo.read_data_and_prepare ss file = Raise (KeyError "as_of_ts").
Proof.
  intros Hss.
  unfold MatchBingo.read_data_and_prepare, MatchBingo.session_get, read_file.
  run_stage. cbn [to_datetime]. lookup_columns. cbn [to_datetime].
  lookup_columns. rewrite Hss. reflexivity.
Qed.

(** The batch estimator: the mean of the per-record products. *)
Lemma batch_calculate_avg_clv (file : list (UserRecord F)) :
  Main.calculate_avg_clv (batch_derived file)
  = Ok (mean_of (map (fun u => f_mul (batch_revenue u) (batch_months u))
                     file),
        batch_derived file).
Proof.
  unfold Main.calculate_avg_clv, batch_derived. run_stage.
  cbn [mul as_floats mean]. rewrite zip_with_map. reflexivity.
Qed.

Lemma batch_clv_eq (file : list (UserRecord F)) :
  batch_clv file
  = Ok (mean_of (map (fun u => f_mul (batch_revenue u) (batch_months u))
                     file)).
Proof.
  unfold batch_clv, value.
  rewrite batch_read_data_and_prepare, batch_calculate_avg_clv. reflexivity.
Qed.

(** The dashboard's estimator asks for a column its derivation stage never
    writes. *)
Lemma app_calculate_avg_clv (as_of_ts : Timestamp)
    (file : list (UserRecord F)) :
  MatchBingo.calculate_avg_clv (app_derived as_of_ts file)
  = Raise (KeyError "cust_lifetime_months").
Proof.
  unfold MatchBingo.calculate_avg_clv, app_derived, read_file. run_stage.
  cbn [mean as_floats]. lookup_columns. reflexivity.
Qed.

Lemma app_clv_eq (ss : gmap string Timestamp) (as_of_ts : Timestamp)
    (file : list (UserRecord F)) :
  ss !! "as_of_ts" = Some as_of_ts ->
  app_clv ss file = Raise (KeyError "cust_lifetime_months").
Proof.
  intros Hss. unfold app_clv, value.
  rewrite (app_read_data_and_prepare _ _ _ Hss), app_calculate_avg_clv.
  reflexivity.
Qed.

End Derivation.

(** ** The CLV estimator on a sample file *)

(** C1. On [two_users] (lifetimes of one and two months, monthly revenues 30
    and 60) the batch estimator returns 75, the mean of the per-record
    products 30 and 120, where the product of the two means is
    45 * 1.5 = 67.5; the dashboard's estimator returns nothing: it raises
    [KeyError] for the column [cust_lifetime_months]. *)
Theorem clv_on_two_users :
  batch_clv two_users = Ok 75%float
  /\ f_mul (mean_of (map batch_revenue two_users))
           (mean_of (map batch_months two_users)) = 67.5%float
  /\ app_clv {["as_of_ts" := day 90]} two_users
     = Raise (KeyError "cust_lifetime_months").
Proof. repeat split; vm_compute; reflexivity. Qed.

(** ** The floor on the lifetime *)

Lemma q_is0_true (q : Qc) : q_is0 q = true <-> q = 0%Qc.
Proof.
  unfold q_is0. rewrite Z.eqb_eq. split.
  - intros Hq. apply Qc_is_canon. destruct q as [[n d] Hc]. simpl in *.
    subst n. reflexivity.
  - intros ->. reflexivity.
Qed.

Lemma q_is0_false (q : Qc) : q <> 0%Qc -> q_is0 q = false.
Proof.
  intros Hq. destruct (q_is0 q) eqn:H0; [|reflexivity].
  apply q_is0_true in H0. contradiction.
Qed.

Lemma Q2Qc_inject_nonzero (z : Z) : z <> 0 -> Q2Qc (inject_Z z) <> 0%Qc.
Proof.
  intros Hz Heq. change 0%Qc with (Q2Qc (inject_Z 0)) in Heq.
  apply Q2Qc_eq_iff in Heq. unfold Qeq in Heq. simpl in Heq. lia.
Qed.

Lemma x_of_int_div_nonzero (d n : Z) :
  d <> 0 -> n <> 0 -> x_div (x_of_int d) (x_of_int n) <> x_of_int 0.
Proof.
  intros Hd Hn. unfold x_div, x_of_int.
  pose proof (Q2Qc_inject_nonzero d Hd) as Hqd.
  pose proof (Q2Qc_inject_nonzero n Hn) as Hqn.
  rewrite (q_is0_false _ Hqn). intros Heq.
  assert (Hz : (Q2Qc (inject_Z d) / Q2Qc (inject_Z n))%Qc = 0%Qc).
  { unfold x_of_int in Heq. injection Heq as Heq. apply Qc_decomp.
    exact Heq. }
  apply Hqd.
  replace (Q2Qc (inject_Z d))
    with (Q2Qc (inject_Z d) / Q2Qc (inject_Z n) * Q2Qc (inject_Z n))%Qc
    by (field; exact Hqn).
  rewrite Hz. ring.
Qed.

(** The dashboard's derivation floors the day count at one. *)
Lemma app_days_floor {F} (as_of_ts : Timestamp) (u : UserRecord F) :
  1 <= app_days as_of_ts u.
Proof. unfold app_days. lia. Qed.

Lemma app_lifetime_days_floor {F} `{Float64 F} (ss : gmap string Timestamp)
    (file : list (UserRecord F)) (df : DataFrame F) :
  MatchBingo.read_data_and_prepare ss file = Ok df ->
  exists l, columns df !! "lifetime_days" = Some (Ints l)
            /\ length l = length file /\ Forall (fun d => 1 <= d) l.
Proof.
  destruct (ss !! "as_of_ts") as [t|] eqn:Hss.
  - rewrite (app_read_data_and_prepare _ _ _ Hss). intros [= <-].
    exists (map (app_days t) file). unfold app_derived. lookup_columns.
    split; [reflexivity|]. split; [apply length_map|].
    apply List.Forall_forall. intros d Hd. apply in_map_iff in Hd as (u & <- & _).
    apply app_days_floor.
  - rewrite (app_read_no_as_of _ _ Hss). discriminate.
Qed.

(** With the floor, the dashboard's [lifetime_months] is never zero. *)
Lemma app_months_nonzero_exact (as_of_ts : Timestamp) (u : UserRecord xnum) :
  app_months as_of_ts u <> f_of_int 0.
Proof.
  apply x_of_int_div_nonzero; [|discriminate].
  pose proof (app_days_floor as_of_ts u). lia.
Qed.

(** C2. The batch derivation does not floor: for a customer whose last login
    is on the day of joining, [cust_lifetime_days] is 0, [cust_lifetime_months]
    is 0.0 and [monthly_revenue] is 10 / 0.0, infinity. *)
Theorem batch_lifetime_not_floored :
  Main.read_data_and_prepare same_day_user = Ok (batch_derived same_day_user)
  /\ columns (batch_derived same_day_user) !! "cust_lifetime_days"
     = Some (Ints [0])
  /\ columns (batch_derived same_day_user) !! "cust_lifetime_months"
     = Some (Floats [0%float])
  /\ columns (batch_derived same_day_user) !! "monthly_revenue"
     = Some (Floats [infinity]).
Proof.
  split; [apply batch_read_data_and_prepare|].
  repeat split; vm_compute; reflexivity.
Qed.

(** ** The churn tagger *)

Lemma lookup_map {A B} (f : A -> B) (l : list A) (i : nat) :
  map f l !! i = f <$> (l !! i).
Proof.
  revert i. induction l as [|a l IH]; intros [|i]; simpl; auto.
Qed.

Section Churn.
Context {F : Type} `{Float64 F}.

Lemma tag_churn_run (ss : gmap string Timestamp)
    (as_of_ts : Timestamp) (cut_off : Z)
    (df : DataFrame F) (l : list Timestamp) :
  ss !! "as_of_ts" = Some as_of_ts ->
  columns df !! "last_login_date" = Some (Datetimes l) ->
  MatchBingo.tag_churn ss cut_off df
  = Ok (tt, Frame (nrows df)
              (<["churned" :=
                   Bools (map (fun t => t <? as_of_ts - Timedelta cut_off) l)]>
                 (columns df))).
Proof.
  intros Hss Hl. unfold MatchBingo.tag_churn, MatchBingo.session_get.
  run_stage. rewrite Hss. rewrite Hl. reflexivity.
Qed.

Lemma identify_churn_users_run (today cutoff_days : Z)
    (df : DataFrame F) (l : list Timestamp) :
  columns df !! "last_login_date" = Some (Datetimes l) ->
  Main.identify_churn_users today cutoff_days df
  = Ok (tt, Frame (nrows df)
              (<["churned" :=
                   Bools (map (fun t => t <? today - Timedelta cutoff_days) l)]>
                 (columns df))).
Proof.
  intros Hl. unfold Main.identify_churn_users. run_stage. rewrite Hl.
  reflexivity.
Qed.

(** C3, amended.  The dashboard's tagger, for the as-of timestamp of the
    session, and the batch tagger, for the reading of the clock, each with
    a cutoff in days, write a [churned] column in which a record is flagged
    if and only if its last login is strictly earlier than that timestamp
    minus the cutoff, a day being 86 400 000 000 000 nanoseconds; a last
    login exactly at that instant is not flagged. *)
Theorem churn_strictly_before_cutoff (ss : gmap string Timestamp)
    (as_of_ts today : Timestamp) (cutoff_days : Z)
    (df : DataFrame F) (l : list Timestamp) :
  ss !! "as_of_ts" = Some as_of_ts ->
  columns df !! "last_login_date" = Some (Datetimes l) ->
  MatchBingo.tag_churn ss cutoff_days df
  = Ok (tt, Frame (nrows df)
              (<["churned" :=
                   Bools (map (fun t =>
                                 bool_decide
                                   (t < as_of_ts
                                        - cutoff_days * 86400000000000))
                              l)]>
                 (columns df)))
  /\ Main.identify_churn_users today cutoff_days df
     = Ok (tt, Frame (nrows df)
                 (<["churned" :=
                      Bools (map (fun t =>
                                    bool_decide
                                      (t < today
                                           - cutoff_days * 86400000000000))
                                 l)]>
                    (columns df)))
  /\ (forall t, t = as_of_ts - cutoff_days * 86400000000000 ->
                bool_decide (t < as_of_ts - cutoff_days * 86400000000000)
                = false)
  /\ (forall t, t = today - cutoff_days * 86400000000000 ->
                bool_decide (t < today - cutoff_days * 86400000000000)
                = false).
Proof.
  intros Hss Hl.
  assert (Hflags : forall lim,
            map (fun t => t <? lim - Timedelta cutoff_days) l
            = map (fun t =>
                     bool_decide (t < lim - cutoff_days * 86400000000000)) l).
  { intros lim. apply map_ext. intros t.
    change (Timedelta cutoff_days) with (cutoff_days * 86400000000000).
    destruct (Z.ltb_spec t (lim - cutoff_days * 86400000000000)).
    - rewrite bool_decide_eq_true_2 by assumption. reflexivity.
    - rewrite bool_decide_eq_false_2 by lia. reflexivity. }
  split; [|split; [|split]].
  - rewrite (tag_churn_run _ _ _ _ _ Hss Hl), Hflags. reflexivity.
  - rewrite (identify_churn_users_run _ _ _ _ Hl), Hflags. reflexivity.
  - intros t ->. apply bool_decide_eq_false_2. lia.
  - intros t ->. apply bool_decide_eq_false_2. lia.
Qed.

End Churn.

(** On [two_users], as of day 90 and with a cutoff of 30 days: the limit is
    day 60, the first customer (last login on day 30) is flagged and the
    second (last login on day 60, the limit itself) is not. *)
Lemma churn_strictly_before_cutoff_witness :
  ({["as_of_ts" := day 90]} : gmap string Timestamp) !! "as_of_ts"
    = Some (day 90)
  /\ columns (batch_derived two_users) !! "last_login_date"
     = Some (Datetimes [day 30; day 60])
  /\ MatchBingo.tag_churn {["as_of_ts" := day 90]} 30
       (batch_derived two_users)
     = Ok (tt, Frame 2 (<["churned" := Bools [true; false]]>
                          (columns (batch_derived two_users))))
  /\ Main.identify_churn_users (noon 90) 30 (batch_derived two_users)
     = Ok (tt, Frame 2 (<["churned" := Bools [true; true]]>
                          (columns (batch_derived two_users))))
  /\ (forall t, t = day 90 - 30 * 86400000000000 ->
                bool_decide (t < day 90 - 30 * 86400000000000) = false)
  /\ (forall t, t = noon 90 - 30 * 86400000000000 ->
                bool_decide (t < noon 90 - 30 * 86400000000000) = false).
Proof.
  assert (H1 : ({["as_of_ts" := day 90]} : gmap string Timestamp) !! "as_of_ts"
               = Some (day 90)) by (vm_compute; reflexivity).
  assert (H2 : columns (batch_derived two_users) !! "last_login_date"
               = Some (Datetimes [day 30; day 60])) by (vm_compute; reflexivity).
  split; [exact H1|]. split; [exact H2|].
  exact (churn_strictly_before_cutoff _ (day 90) (noon 90) 30 _ _ H1 H2).
Defined.

(** C3, as stated, fails for the batch tagger.  The clock read at noon of
    day 90, a customer whose last login is at midnight exactly 30 days
    before that date is flagged as churned. *)
Lemma batch_flags_login_30_days_before_today :
  day 60 = day 90 - 30 * 86400000000000
  /\ columns (batch_derived boundary_user) !! "last_login_date"
     = Some (Datetimes [day 60])
  /\ Main.identify_churn_users (noon 90) 30 (batch_derived boundary_user)
     = Ok (tt, Frame 1 (<["churned" := Bools [true]]>
                          (columns (batch_derived boundary_user))))
  /\ MatchBingo.tag_churn {["as_of_ts" := day 90]} 30
       (batch_derived boundary_user)
     = Ok (tt, Frame 1 (<["churned" := Bools [false]]>
                          (columns (batch_derived boundary_user)))).
Proof. repeat split; vm_compute; reflexivity. Qed.

(** ** The empty file *)

(** On a file without rows the estimator has nothing to average. *)
Lemma batch_clv_empty {F} `{Float64 F} :
  batch_clv (@nil (UserRecord F)) = Ok f_nan.
Proof. rewrite batch_clv_eq. reflexivity. Qed.

(** C4, as stated, fails on the empty file: the batch run does not end in
    an [EmptyDatasetError]. *)
Lemma empty_file_no_EmptyDatasetError :
  ~ exists msg,
      Main.main (day 0) false (@nil (UserRecord float))
      = ([], Raise (Exception "EmptyDatasetError" msg)).
Proof. intros [msg Hmsg]. vm_compute in Hmsg. discriminate. Qed.

(** C4, amended.  On a file without rows the batch run shows nothing and
    ends in the [ValueError] that [pd.qcut] raises for edges that are not
    unique (all five are NaN), whatever the clock reads; the estimator,
    called before, has returned NaN. *)
Theorem main_on_empty_file {F} `{Float64 F} (today : Timestamp)
    (observed_default : bool) :
  Main.main today observed_default (@nil (UserRecord F))
  = ([], Raise (ValueError "Bin edges must be unique"))
  /\ batch_clv (@nil (UserRecord F)) = Ok f_nan.
Proof.
  split; [|apply batch_clv_empty].
  unfold Main.main. rewrite batch_read_data_and_prepare.
  unfold Main.metrics. unfold bind at 1.
  rewrite batch_calculate_avg_clv. unfold bind at 1.
  rewrite (identify_churn_users_run _ _ _ []);
    [|unfold batch_derived; lookup_columns; reflexivity].
  reflexivity.
Qed.

(** ** Quartile bucketing *)

Lemma remove_dups_NoDup {A} `{EqDecision A} (l : list A) :
  NoDup l -> remove_dups l = l.
Proof.
  induction 1 as [|x l Hx Hl IH]; simpl; [reflexivity|].
  destruct (decide_rel elem_of x l); [contradiction|]. by rewrite IH.
Qed.

Lemma quartile_edges_length (x : list Z) : length (quartile_edges x) = 5%nat.
Proof. reflexivity. Qed.

Lemma sorted_nth_le (l : list Z) :
  StronglySorted Z.le l ->
  forall i j, (i <= j < length l)%nat -> nth i l 0 <= nth j l 0.
Proof.
  induction 1 as [|a l Hl IH Ha]; intros i j Hij; simpl in *; [lia|].
  destruct i as [|i], j as [|j]; try lia.
  - rewrite List.Forall_forall in Ha. apply Ha. apply nth_In. lia.
  - apply IH. lia.
Qed.

Lemma In_nth_between (l : list Z) (v : Z) :
  StronglySorted Z.le l -> In v l ->
  nth 0 l 0 <= v <= nth (length l - 1) l 0.
Proof.
  intros Hs Hv. apply (In_nth _ _ 0) in Hv as (i & Hi & <-).
  split; apply sorted_nth_le; auto; lia.
Qed.

(** The outer edges are the least and the greatest value. *)
Lemma quantile4_first (a : Z) (l : list Z) :
  quantile4 (a :: l) 0 = Some (4 * nth 0 (a :: l) 0).
Proof.
  unfold quantile4. rewrite Nat.mul_0_r.
  cbn [Nat.div Nat.modulo Nat.divmod fst snd nth]. simpl. f_equal. lia.
Qed.

Lemma quantile4_last (a : Z) (l : list Z) :
  quantile4 (a :: l) 4 = Some (4 * nth (length (a :: l) - 1) (a :: l) 0).
Proof.
  unfold quantile4. set (n := length (a :: l)).
  rewrite Nat.div_mul by lia. rewrite Nat.Div0.mod_mul.
  f_equal. change (Z.of_nat 0) with 0. lia.
Qed.

Lemma quartile_edges_shape (x : list Z) :
  x <> [] ->
  exists lo hi e1 e2 e3,
    quartile_edges x = [Some lo; e1; e2; e3; Some hi]
    /\ forall v, In v x -> lo <= 4 * v <= hi.
Proof.
  intros Hx. unfold quartile_edges.
  pose proof (merge_sort_Permutation Z.le x) as Hp.
  pose proof (StronglySorted_merge_sort Z.le x) as Hs.
  destruct (merge_sort Z.le x) as [|a s] eqn:Hm.
  - apply Permutation_nil in Hp. congruence.
  - cbn [map seq]. rewrite quantile4_first, quantile4_last.
    do 5 eexists. split; [reflexivity|].
    intros v Hv.
    assert (Hin : In v (a :: s)).
    { apply (Permutation_in v (Permutation_sym Hp)). exact Hv. }
    pose proof (In_nth_between _ _ Hs Hin). lia.
Qed.

(** Between the outer edges every value falls in one of the four
    intervals. *)
Lemma bin_id_range (lo hi : Z) (e1 e2 e3 : option Z) (v : Z) :
  lo <= 4 * v <= hi ->
  (1 <= bin_id [Some lo; e1; e2; e3; Some hi] v <= 4)%nat.
Proof.
  intros Hv. unfold bin_id. cbn [edge_eq searchsorted edge_lt length].
  destruct (lo =? 4 * v) eqn:Hlo; [simpl; lia|].
  apply Z.eqb_neq in Hlo.
  replace (lo <? 4 * v) with true by (symmetry; apply Z.ltb_lt; lia).
  replace (hi <? 4 * v) with false by (symmetry; apply Z.ltb_ge; lia).
  destruct (edge_lt e1 v), (edge_lt e2 v), (edge_lt e3 v); simpl; lia.
Qed.

(** With five distinct edges [qcut] returns, in either mode. *)
Lemma qcut_distinct_edges (x : list Z) (dup : duplicates) :
  NoDup (quartile_edges x) ->
  qcut x labels dup = Ok (map (bucket_of (quartile_edges x)) x).
Proof.
  intros Hnd. unfold qcut. rewrite (remove_dups_NoDup _ Hnd).
  rewrite Nat.ltb_irrefl. cbn [andb]. rewrite quartile_edges_length.
  cbn [labels length Nat.sub Nat.eqb]. rewrite map_map. reflexivity.
Qed.


Lemma distinct_edges_nonempty (x : list Z) :
  NoDup (quartile_edges x) -> x <> [].
Proof.
  intros Hnd ->. vm_compute in Hnd. inversion Hnd as [|? ? Hn _].
  apply Hn. constructor.
Qed.

Lemma bucket_of_is_Some (x : list Z) :
  x <> [] -> Forall is_Some (map (bucket_of (quartile_edges x)) x).
Proof.
  intros Hx.
  destruct (quartile_edges_shape x Hx) as (lo & hi & e1 & e2 & e3 & -> & Hb).
  apply List.Forall_forall. intros c Hc.
  apply in_map_iff in Hc as (v & <- & Hv).
  unfold bucket_of.
  pose proof (bin_id_range lo hi e1 e2 e3 v (Hb v Hv)) as Hr.
  destruct (bin_id _ v) as [|[|[|[|[|i]]]]]; try lia; simpl; eauto.
Qed.

Lemma population_sum (cats : list (option label)) :
  Forall is_Some cats ->
  (population Q1 cats + population Q2 cats + population Q3 cats
   + population Q4 cats = length cats)%nat.
Proof.
  unfold population. induction 1 as [|c cats [q ->] _ IH]; [reflexivity|].
  cbn [List.filter length]. destruct q; simpl; lia.
Qed.

Lemma buckets_le (cats : list (option label)) : (buckets cats <= 4)%nat.
Proof.
  unfold buckets. etransitivity; [apply List.filter_length_le|]. reflexivity.
Qed.

Lemma buckets_ge (cats : list (option label)) (q : label) :
  (0 < population q cats)%nat -> (1 <= buckets cats)%nat.
Proof.
  intros Hq. apply Nat.ltb_lt in Hq. unfold buckets, labels. cbn [List.filter].
  destruct q; rewrite Hq; simpl;
    repeat (match goal with
            | |- context [if ?b then _ else _] => destruct b
            end);
    simpl; lia.
Qed.

Lemma buckets_of_file (x : list Z) (n : nat) :
  NoDup (quartile_edges x) -> length x = n ->
  let cats := map (bucket_of (quartile_edges x)) x in
  length cats = n
  /\ (1 <= buckets cats <= 4)%nat
  /\ (population Q1 cats + population Q2 cats
      + population Q3 cats + population Q4 cats = n)%nat
  /\ (forall i q q', cats !! i = Some (Some q) ->
                     cats !! i = Some (Some q') -> q = q').
Proof.
  intros Hnd Hn cats.
  pose proof (distinct_edges_nonempty x Hnd) as Hx.
  pose proof (bucket_of_is_Some x Hx) as Hsome. fold cats in Hsome.
  assert (Hlen : length cats = n) by (unfold cats; rewrite length_map; exact Hn).
  split; [exact Hlen|]. split; [split; [|apply buckets_le]|split].
  - destruct cats as [|c cats']; [destruct x; simpl in *; congruence|].
    inversion Hsome as [|? ? [q ->] _]; subst.
    apply (buckets_ge _ q). unfold population. cbn [List.filter].
    rewrite bool_decide_eq_true_2 by reflexivity. simpl. lia.
  - rewrite <- Hlen. apply population_sum, Hsome.
  - intros i q q' H1 H2. congruence.
Qed.

Section Stage.
Context {F : Type} `{Float64 F}.

(** The two bucketing stages, step by step. *)
Lemma user_segmentation_unfold (obs : bool) (df : DataFrame F) :
  Main.user_segmentation obs df =
  match columns df !! "total_games_played" with
  | None => Raise (KeyError "total_games_played")
  | Some g =>
    match as_ints g with
    | Raise e => Raise e
    | Ok x =>
      match qcut x labels dup_raise with
      | Raise e => Raise e
      | Ok cats =>
        match columns df !! "total_deposit" with
        | None => Raise (KeyError "total_deposit")
        | Some d =>
          match as_floats d with
          | Raise e => Raise e
          | Ok vals =>
              Ok (groupby_mean obs cats vals,
                  Frame (nrows df)
                    (<["games_played_quartile" := Categories cats]>
                       (columns df)))
          end
        end
      end
    end
  end.
Proof.
  unfold Main.user_segmentation. run_stage.
  destruct (columns df !! "total_games_played") as [g|]; [|reflexivity].
  destruct (as_ints g) as [x|e]; [|reflexivity].
  destruct (qcut x labels dup_raise) as [cats|e]; [|reflexivity].
  lookup_columns. cbn [as_categories]. lookup_columns.
  destruct (columns df !! "total_deposit") as [d|]; [|reflexivity].
  destruct (as_floats d) as [vals|e]; reflexivity.
Qed.

Lemma quartile_summary_unfold (df : DataFrame F) :
  MatchBingo.quartile_summary df =
  match columns df !! "total_games_played" with
  | None => Raise (KeyError "total_games_played")
  | Some g =>
    match as_ints g with
    | Raise e => Raise e
    | Ok x =>
      match qcut x labels dup_drop with
      | Raise e => Raise e
      | Ok cats =>
        match columns df !! "total_deposit" with
        | None => Raise (KeyError "total_deposit")
        | Some d =>
          match as_floats d with
          | Raise e => Raise e
          | Ok vals =>
              Ok (reindex (groupby_mean true cats vals) labels,
                  Frame (nrows df)
                    (<["games_quartile" := Categories cats]> (columns df)))
          end
        end
      end
    end
  end.
Proof.
  unfold MatchBingo.quartile_summary. run_stage.
  destruct (columns df !! "total_games_played") as [g|]; [|reflexivity].
  destruct (as_ints g) as [x|e]; [|reflexivity].
  destruct (qcut x labels dup_drop) as [cats|e]; [|reflexivity].
  lookup_columns. cbn [as_categories]. lookup_columns.
  destruct (columns df !! "total_deposit") as [d|]; [|reflexivity].
  destruct (as_floats d) as [vals|e]; reflexivity.
Qed.

End Stage.

(** On the file without rows neither stage returns buckets. *)
Lemma empty_table_has_no_buckets :
  ~ bucketing_invariant (Main.user_segmentation false)
      "games_played_quartile" (batch_derived (@nil (UserRecord float)))
  /\ ~ bucketing_invariant MatchBingo.quartile_summary "games_quartile"
         (app_derived (day 0) (@nil (UserRecord float))).
Proof.
  split; intros (s & df' & cats & Hrun & _); vm_compute in Hrun;
    discriminate.
Qed.

(** C5.  On [tied_users], five customers of whom four have played one
    game and one has played two, the quartile edges are 1, 1, 1, 1 and 2.
    The dashboard's stage, which asks [qcut] to drop repeated edges, still
    raises [ValueError], its four labels not fitting the two edges left;
    the batch stage raises [ValueError] for the repeated edge.  Neither
    yields a bucket. *)
Theorem bucketing_fails_on_tied_users :
  map total_games_played tied_users = [1; 1; 1; 1; 2]
  /\ in_float_range [1; 1; 1; 1; 2] = true
  /\ quartile_edges [1; 1; 1; 1; 2]
     = [Some 4; Some 4; Some 4; Some 4; Some 8]
  /\ MatchBingo.quartile_summary (app_derived (day 90) tied_users)
     = Raise (ValueError
                "Bin labels must be one fewer than the number of bin edges")
  /\ (forall observed_default,
        Main.user_segmentation observed_default (batch_derived tied_users)
        = Raise (ValueError "Bin edges must be unique"))
  /\ ~ bucketing_invariant MatchBingo.quartile_summary "games_quartile"
         (app_derived (day 90) tied_users)
  /\ ~ bucketing_invariant (Main.user_segmentation false)
         "games_played_quartile" (batch_derived tied_users).
Proof.
  assert (Hd : MatchBingo.quartile_summary (app_derived (day 90) tied_users)
               = Raise (ValueError
                  "Bin labels must be one fewer than the number of bin edges"))
    by (vm_compute; reflexivity).
  assert (Hb : forall obs,
             Main.user_segmentation obs (batch_derived tied_users)
             = Raise (ValueError "Bin edges must be unique"))
    by (intros []; vm_compute; reflexivity).
  split; [reflexivity|]. split; [reflexivity|].
  split; [vm_compute; reflexivity|]. split; [exact Hd|]. split; [exact Hb|].
  split; intros (s & df' & cats & Hrun & _).
  - rewrite Hd in Hrun. discriminate.
  - rewrite Hb in Hrun. discriminate.
Qed.

(** ** Sums in exact arithmetic *)

Lemma x_add_comm (a b : xnum) : x_add a b = x_add b a.
Proof.
  destruct a as [p|s|], b as [q|t|]; cbn [x_add]; try reflexivity.
  - f_equal. ring.
  - destruct s, t; reflexivity.
Qed.

Lemma x_add_assoc (a b c : xnum) : x_add a (x_add b c) = x_add (x_add a b) c.
Proof.
  destruct a as [p|s|], b as [q|t|], c as [r|u|]; cbn [x_add];
    try reflexivity;
    try (f_equal; ring);
    repeat match goal with b : bool |- _ => destruct b end; reflexivity.
Qed.

Lemma x_add_0_l (a : xnum) : x_add (x_of_int 0) a = a.
Proof.
  destruct a as [p| |]; cbn [x_add x_of_int]; try reflexivity.
  f_equal. change (Q2Qc (inject_Z 0)) with 0%Qc. ring.
Qed.

Lemma x_add_0_r (a : xnum) : x_add a (x_of_int 0) = a.
Proof. rewrite x_add_comm. apply x_add_0_l. Qed.

Lemma seq_sum_exact (a : list xnum) (acc : xnum) :
  seq_sum a acc = x_add acc (x_sum a).
Proof.
  unfold seq_sum. revert acc. induction a as [|v a IH]; intros acc;
    cbn [fold_left fold_right x_sum].
  - symmetry. apply x_add_0_r.
  - change (f_add acc v) with (x_add acc v). rewrite IH.
    unfold x_sum. symmetry. apply x_add_assoc.
Qed.

Lemma x_sum_app (a b : list xnum) : x_sum (a ++ b) = x_add (x_sum a) (x_sum b).
Proof.
  unfold x_sum. induction a as [|v a IH]; cbn [app fold_right].
  - symmetry. apply x_add_0_l.
  - rewrite IH. apply x_add_assoc.
Qed.

Lemma x_sum_zip (r c : list xnum) :
  length r = length c ->
  x_sum (zip_with x_add r c) = x_add (x_sum r) (x_sum c).
Proof.
  revert c. induction r as [|u r IH]; intros [|v c] Hlen; try discriminate.
  - symmetry. apply x_add_0_l.
  - cbn [zip_with x_sum fold_right]. fold (x_sum (zip_with x_add r c)).
    fold (x_sum r) (x_sum c). rewrite IH by (simpl in Hlen; lia).
    rewrite <- !x_add_assoc. f_equal.
    rewrite !x_add_assoc. f_equal. apply x_add_comm.
Qed.

Lemma lanes_sum_exact (blocks : nat) (r a : list xnum) :
  length r = 8%nat -> (8 * blocks <= length a)%nat ->
  length (lanes_sum r a blocks) = 8%nat
  /\ x_sum (lanes_sum r a blocks)
     = x_add (x_sum r) (x_sum (firstn (8 * blocks) a)).
Proof.
  revert r a. induction blocks as [|b IH]; intros r a Hr Ha.
  - cbn [lanes_sum]. split; [exact Hr|].
    replace (8 * 0)%nat with 0%nat by lia. cbn [firstn].
    symmetry. apply x_add_0_r.
  - cbn [lanes_sum].
    assert (H8 : length (firstn 8 a) = 8%nat)
      by (rewrite length_firstn; lia).
    destruct (IH (zip_with f_add r (firstn 8 a)) (skipn 8 a)) as [IH1 IH2].
    { rewrite length_zip_with. lia. }
    { rewrite length_skipn. clear -Ha. lia. }
    split; [exact IH1|]. rewrite IH2.
    change (zip_with f_add r (firstn 8 a))
      with (zip_with x_add r (firstn 8 a)).
    rewrite x_sum_zip by lia. rewrite <- x_add_assoc. f_equal.
    rewrite <- x_sum_app. f_equal.
    replace (8 * S b)%nat with (8 + 8 * b)%nat by lia.
    rewrite <- (firstn_skipn 8 a) at 3.
    rewrite firstn_app, H8.
    rewrite (firstn_all2 (n := (8 + 8 * b)%nat) (firstn 8 a))
      by (rewrite H8; clear; lia).
    replace (8 + 8 * b - 8)%nat with (8 * b)%nat by lia. reflexivity.
Qed.

Lemma lanes_total_exact (r : list xnum) :
  length r = 8%nat -> lanes_total r = x_sum r.
Proof.
  intros Hr. do 9 (destruct r as [|? r]; try discriminate).
  cbn [lanes_total x_sum fold_right].
  change f_add with x_add. rewrite x_add_0_r, !x_add_assoc. reflexivity.
Qed.

Lemma block_sum_exact (a : list xnum) :
  (8 <= length a)%nat -> block_sum a = x_sum a.
Proof.
  intros Hn. unfold block_sum. set (n := length a) in *.
  pose proof (Nat.div_mod_eq n 8) as Hd.
  pose proof (Nat.mod_upper_bound n 8 ltac:(lia)) as Hm.
  assert (Hq : (1 <= n / 8)%nat) by lia.
  destruct (lanes_sum_exact (n / 8 - 1) (firstn 8 a) (skipn 8 a)) as [L1 L2].
  { rewrite length_firstn. lia. }
  { rewrite length_skipn. fold n. lia. }
  rewrite seq_sum_exact, (lanes_total_exact _ L1), L2.
  rewrite <- !x_sum_app. f_equal.
  rewrite <- app_assoc.
  transitivity (firstn 8 a ++ skipn 8 a)%list; [|apply firstn_skipn]. f_equal.
  transitivity (firstn (8 * (n / 8 - 1)) (skipn 8 a)
                ++ skipn (8 * (n / 8 - 1)) (skipn 8 a))%list;
    [|apply firstn_skipn].
  f_equal. rewrite skipn_skipn. f_equal. clear -Hq. lia.
Qed.

Lemma pairwise_sum_rec_exact (fuel : nat) (a : list xnum) :
  pairwise_sum_rec fuel a = x_sum a.
Proof.
  revert a. induction fuel as [|fuel IH]; intros a; cbn [pairwise_sum_rec];
    destruct (length a <? 8)%nat eqn:E8;
    try (rewrite seq_sum_exact; apply x_add_0_l);
    apply Nat.ltb_ge in E8;
    destruct (length a <=? 128)%nat; try (apply block_sum_exact; exact E8).
  change f_add with x_add. rewrite !IH, <- x_sum_app, firstn_skipn.
  reflexivity.
Qed.

Lemma pairwise_sum_exact (a : list xnum) :
  pairwise_sum a = seq_sum a (x_of_int 0).
Proof.
  unfold pairwise_sum. rewrite pairwise_sum_rec_exact, seq_sum_exact.
  symmetry. apply x_add_0_l.
Qed.

(** In exact arithmetic the sum of [Series.mean] is the sum from the left. *)
Lemma nansum_exact (l : list xnum) :
  nansum l
  = fold_left x_add (map (fun x => if x_isnan x then x_of_int 0 else x) l)
      (x_of_int 0).
Proof. unfold nansum. rewrite pairwise_sum_exact. reflexivity. Qed.

Section ShortSums.
Context {F : Type} `{Float64 F}.

(** Below 8 entries the sum is the sum from the left in every arithmetic. *)
Lemma nansum_short (l : list F) :
  (length l < 8)%nat ->
  nansum l
  = fold_left f_add (map (fun x => if f_isnan x then f_of_int 0 else x) l)
      (f_of_int 0).
Proof.
  intros Hl. unfold nansum, pairwise_sum.
  destruct (length (map _ l)) eqn:E; cbn [pairwise_sum_rec];
    rewrite E; rewrite length_map in E;
    (replace (_ <? 8)%nat with true by (symmetry; apply Nat.ltb_lt; lia));
    reflexivity.
Qed.
End ShortSums.

(** ** The quartile summary *)

(** In exact arithmetic Kahan's compensation is zero after every step, and
    the compensated sum is the sum. *)
Lemma kahan_step_exact (s v : xnum) :
  x_isnan v = false ->
  x_isnan (x_sub (x_sub (x_add s v) s) v) = true
  \/ x_sub (x_sub (x_add s v) s) v = x_of_int 0.
Proof.
  intros Hv. destruct s as [p|a|], v as [q|b|]; try discriminate;
    cbn [x_add x_sub x_opp x_isnan];
    try (left;
         repeat match goal with s : bool |- _ => destruct s end;
         reflexivity).
  right. unfold x_of_int. f_equal.
  change (Q2Qc (inject_Z 0)) with 0%Qc. ring.
Qed.

Lemma x_sub_0_r (a : xnum) : x_sub a (x_of_int 0) = a.
Proof.
  unfold x_sub. replace (x_opp (x_of_int 0)) with (x_of_int 0).
  - apply x_add_0_r.
  - cbn [x_opp x_of_int]. apply (f_equal XFin), Qc_is_canon. reflexivity.
Qed.

Lemma fold_group_add_exact (l : list xnum) (g : group) :
  g_comp g = x_of_int 0 ->
  fold_left group_add l g
  = Group (g_rows g + length l) (g_nobs g + count l)
      (fold_left x_add (map (fun x => if x_isnan x then x_of_int 0 else x) l)
         (g_sum g))
      (x_of_int 0).
Proof.
  revert g. induction l as [|v l IH]; intros g Hc; cbn [fold_left map length].
  - destruct g. cbn in Hc. subst. unfold count. simpl. f_equal; lia.
  - unfold group_add at 2. change (f_isnan v) with (x_isnan v).
    destruct (x_isnan v) eqn:Ev.
    + rewrite IH by exact Hc. cbn [g_rows g_nobs g_sum].
      unfold count. cbn [List.filter]. change (f_isnan v) with (x_isnan v).
      rewrite Ev. cbn [negb]. rewrite x_add_0_r. f_equal; lia.
    + rewrite Hc. change f_sub with x_sub. change f_add with x_add.
      change f_isnan with x_isnan. change (f_of_int 0) with (x_of_int 0).
      rewrite x_sub_0_r.
      assert (Hk : (if x_isnan (x_sub (x_sub (x_add (g_sum g) v) (g_sum g)) v)
                    then x_of_int 0
                    else x_sub (x_sub (x_add (g_sum g) v) (g_sum g)) v)
                   = x_of_int 0).
      { destruct (kahan_step_exact (g_sum g) v Ev) as [-> | ->];
          reflexivity. }
      rewrite Hk, IH by reflexivity. cbn [g_rows g_nobs g_sum].
      unfold count. cbn [List.filter]. change (f_isnan v) with (x_isnan v).
      rewrite Ev. cbn [negb length]. f_equal; lia.
Qed.

(** In exact arithmetic the mean of a group is the mean of its values. *)
Lemma group_mean_of_exact (l : list xnum) : group_mean_of l = mean_of l.
Proof.
  unfold group_mean_of. rewrite fold_group_add_exact by reflexivity.
  unfold group_mean, mean_of. cbn [g_nobs g_sum group0 Nat.add].
  rewrite nansum_exact. reflexivity.
Qed.

Section Summary.
Context {F : Type} `{Float64 F}.

(** One pass over the rows accumulates, for each category, what a pass over
    its own rows would. *)
Lemma fold_group_step (rows : list (option label * F)) (gs : label -> group)
    (q : label) :
  fold_left group_step rows gs q
  = fold_left group_add
      (map snd (List.filter (fun row => bool_decide (row.1 = Some q)) rows))
      (gs q).
Proof.
  revert gs. induction rows as [|[[q0|] v] rows IH]; intros gs;
    cbn [fold_left List.filter fst]; [reflexivity| |].
  - rewrite IH. cbn [group_step].
    destruct (decide (q = q0)) as [->|Hne].
    + rewrite bool_decide_eq_true_2 by reflexivity. reflexivity.
    + rewrite bool_decide_eq_false_2 by congruence. reflexivity.
  - rewrite IH. rewrite bool_decide_eq_false_2 by discriminate. reflexivity.
Qed.

(** Every row of a group is counted, whatever its value. *)
Lemma fold_group_rows (l : list F) (g : group) :
  g_rows (fold_left group_add l g) = (g_rows g + length l)%nat.
Proof.
  revert g. induction l as [|v l IH]; intros g; cbn [fold_left length].
  - lia.
  - rewrite IH. unfold group_add. destruct (f_isnan v); cbn [g_rows]; lia.
Qed.

Lemma group_rows_members (cats : list (option label)) (vals : list F)
    (q : label) :
  g_rows (group_rows cats vals q) = length (members q cats vals)
  /\ group_mean (group_rows cats vals q) = group_mean_of (members q cats vals).
Proof.
  unfold group_mean_of, group_rows, members. rewrite fold_group_step.
  split; [|reflexivity]. rewrite fold_group_rows. reflexivity.
Qed.


Lemma groupby_mean_members (obs : bool) (cats : list (option label))
    (vals : list F) :
  groupby_mean obs cats vals
  = omap (fun q => if obs && (length (members q cats vals) =? 0)%nat then None
                   else Some (q, group_mean_of (members q cats vals))) labels.
Proof.
  unfold groupby_mean. induction labels as [|q l IH]; [reflexivity|].
  cbn [omap list_omap].
  destruct (group_rows_members cats vals q) as [-> ->].
  cbn [omap list_omap] in IH. rewrite IH. reflexivity.
Qed.

(** Without [observed], every category has its entry. *)
Lemma groupby_all_categories (cats : list (option label)) (vals : list F) :
  groupby_mean false cats vals = summary_of cats vals.
Proof.
  rewrite groupby_mean_members. unfold summary_of, labels.
  cbn [omap list_omap andb map]. reflexivity.
Qed.



End Summary.

(** In binary64 the two means show their summations.  The mean of the
    group of 0.3, 0.4 and 0.6 is 0.43333333333333335, compensated, where
    the sum from the left gives 0.4333333333333333; the mean of the nine
    deposits is 48.87777777777777, summed pairwise, where the sum from the
    left gives 48.87777777777778. *)
Lemma means_in_binary64 :
  group_mean_of three_deposits = 0x1.bbbbbbbbbbbbcp-2%float
  /\ mean_of three_deposits = 0x1.bbbbbbbbbbbbbp-2%float
  /\ mean_of nine_deposits = 0x1.8705b05b05b05p+5%float
  /\ PrimFloat.div (seq_sum nine_deposits 0%float) 9%float
     = 0x1.8705b05b05b06p+5%float.
Proof. repeat split; vm_compute; reflexivity. Qed.

(** In exact arithmetic the entries are the means of the members. *)
Lemma groupby_mean_members_exact (obs : bool) (cats : list (option label))
    (vals : list xnum) :
  groupby_mean obs cats vals
  = omap (fun q => if obs && (length (members q cats vals) =? 0)%nat then None
                   else Some (q, mean_of (members q cats vals))) labels.
Proof.
  rewrite groupby_mean_members. unfold labels. cbn [omap list_omap].
  rewrite !group_mean_of_exact. reflexivity.
Qed.


(** ** The CLV estimator and the order of the rows *)

Ltac floats_differ H :=
  apply (f_equal Prim2SF) in H; vm_compute in H; discriminate H.
Ltac results_differ H :=
  apply (f_equal float_bits) in H; vm_compute in H; discriminate H.

(** C7, as stated, fails in binary64: the three customers of
    [nine_day_users] have the per-record products 50.00000000000001,
    50.00000000000001 and 20; summed in this order their mean is not the 40
    that the order 20, 50.00000000000001, 50.00000000000001 gives. *)
Lemma clv_row_order_binary64 :
  Permutation nine_day_users nine_day_users_reordered
  /\ batch_clv nine_day_users <> batch_clv nine_day_users_reordered
  /\ batch_clv nine_day_users_reordered = Ok 40%float.
Proof.
  split; [|split].
  - unfold nine_day_users, nine_day_users_reordered. apply Permutation_sym.
    apply (Permutation_cons_append [_; _]).
  - intros Heq. results_differ Heq.
  - vm_compute. reflexivity.
Qed.

(** Exact addition can be reordered. *)
Lemma x_add_swap (a x y : xnum) :
  x_add (x_add a x) y = x_add (x_add a y) x.
Proof.
  destruct a as [p|s|], x as [q|t|], y as [r|u|]; cbn [x_add];
    try reflexivity;
    try (f_equal; ring);
    repeat match goal with b : bool |- _ => destruct b end;
    reflexivity.
Qed.

Lemma fold_left_swap_perm {A B} (f : A -> B -> A) (l l' : list B) :
  (forall a x y, f (f a x) y = f (f a y) x) ->
  Permutation l l' -> forall a, fold_left f l a = fold_left f l' a.
Proof.
  intros Hf. induction 1 as [|x l l' _ IH|x y l|l l' l'' _ IH1 _ IH2];
    intros a; cbn [fold_left].
  - reflexivity.
  - apply IH.
  - rewrite Hf. reflexivity.
  - rewrite IH1. apply IH2.
Qed.

Lemma filter_length_perm {A} (p : A -> bool) (l l' : list A) :
  Permutation l l' ->
  length (List.filter p l) = length (List.filter p l').
Proof.
  induction 1 as [|x l l' _ IH|x y l|l l' l'' _ IH1 _ IH2]; cbn [List.filter].
  - reflexivity.
  - destruct (p x); cbn [length]; congruence.
  - destruct (p x), (p y); reflexivity.
  - congruence.
Qed.

Lemma mean_of_exact_perm (l l' : list xnum) :
  Permutation l l' -> mean_of l = mean_of l'.
Proof.
  intros Hp. unfold mean_of, count. rewrite !nansum_exact.
  rewrite (filter_length_perm _ _ _ Hp).
  rewrite (fold_left_swap_perm x_add _ _ x_add_swap (Permutation_map _ Hp)).
  reflexivity.
Qed.

(** C7, amended.  In exact arithmetic the CLV of a file does not depend on
    the order of its rows: the batch estimator returns the same value on
    every permutation, and the dashboard's estimator raises the same
    [KeyError]. *)
Theorem clv_row_order_exact (ss : gmap string Timestamp)
    (file file' : list (UserRecord xnum)) :
  Permutation file file' ->
  batch_clv file = batch_clv file' /\ app_clv ss file = app_clv ss file'.
Proof.
  intros Hp. split.
  - rewrite !batch_clv_eq. f_equal. apply mean_of_exact_perm.
    apply Permutation_map, Hp.
  - unfold app_clv. destruct (ss !! "as_of_ts") as [t|] eqn:Hss.
    + rewrite !(app_read_data_and_prepare _ _ _ Hss). unfold value.
      rewrite !app_calculate_avg_clv. reflexivity.
    + rewrite !(app_read_no_as_of _ _ Hss). reflexivity.
Qed.

Lemma clv_row_order_exact_witness :
  Permutation two_users_exact two_users_exact_swapped
  /\ batch_clv two_users_exact = batch_clv two_users_exact_swapped
  /\ app_clv {["as_of_ts" := day 90]} two_users_exact
     = app_clv {["as_of_ts" := day 90]} two_users_exact_swapped.
Proof.
  assert (Hp : Permutation two_users_exact two_users_exact_swapped)
    by apply perm_swap.
  split; [exact Hp|].
  exact (clv_row_order_exact {["as_of_ts" := day 90]} _ _ Hp).
Defined.

(** ** The batch CLV and the mean deposit *)

(** C10, as stated, fails in binary64: for the customer of [nine_day_user]
    the lifetime is 9 / 30 = 0.3 months, not zero, the monthly revenue
    100 / 0.3 = 333.33333333333337 and their product 100.00000000000001,
    not the deposit of 100. *)
Lemma batch_clv_is_not_mean_deposit :
  Forall (fun u => batch_months u <> f_of_int 0) nine_day_user
  /\ mean_of (map total_deposit nine_day_user) = 100%float
  /\ batch_clv nine_day_user
     <> Ok (mean_of (map total_deposit nine_day_user)).
Proof.
  split; [|split].
  - repeat constructor. intros Heq. floats_differ Heq.
  - vm_compute. reflexivity.
  - intros Heq. results_differ Heq.
Qed.

(** Exact division by a nonzero rational is undone by the multiplication. *)
Lemma x_div_mul_cancel (a : xnum) (q : Qc) :
  q <> 0%Qc -> x_mul (x_div a (XFin q)) (XFin q) = a.
Proof.
  intros Hq. pose proof (q_is0_false q Hq) as H0.
  destruct a as [p|s|]; cbn [x_div x_mul]; rewrite ?H0; cbn [x_mul];
    rewrite ?H0.
  - f_equal. field. exact Hq.
  - f_equal. destruct s, (q_neg q); reflexivity.
  - reflexivity.
Qed.

Lemma batch_months_exact (u : UserRecord xnum) :
  batch_months u
  = XFin (Q2Qc (inject_Z (batch_days u)) / Q2Qc (inject_Z 30))%Qc.
Proof. reflexivity. Qed.

(** C10, amended.  In exact arithmetic, for every file in which every
    record's [cust_lifetime_months] is nonzero, the batch estimator returns
    the mean of [total_deposit] over all records. *)
Theorem batch_clv_is_mean_deposit_exact (file : list (UserRecord xnum)) :
  Forall (fun u => batch_months u <> f_of_int 0) file ->
  batch_clv file = Ok (mean_of (map total_deposit file)).
Proof.
  intros Hnz. rewrite batch_clv_eq. do 2 f_equal.
  apply map_ext_in. intros u Hu.
  rewrite List.Forall_forall in Hnz. specialize (Hnz u Hu).
  unfold batch_revenue. rewrite batch_months_exact in *.
  apply x_div_mul_cancel. intros Hq. apply Hnz. rewrite Hq. reflexivity.
Qed.

Lemma batch_clv_is_mean_deposit_exact_witness :
  Forall (fun u => batch_months u <> f_of_int 0) two_users_exact
  /\ batch_clv two_users_exact
     = Ok (mean_of (map total_deposit two_users_exact)).
Proof.
  assert (Hnz : Forall (fun u => batch_months u <> f_of_int 0)
                  two_users_exact).
  { repeat constructor; intros Heq; vm_compute in Heq; discriminate Heq. }
  split; [exact Hnz|].
  exact (batch_clv_is_mean_deposit_exact two_users_exact Hnz).
Defined.

(** ** Two runs *)

Section Runs.
Context {F : Type} `{Float64 F}.

(** The dashboard never gets past its estimator: whatever the session held,
    and whatever the date, the cutoff and the file, a run shows the title
    and ends in the [KeyError]. *)
Lemma script_raises (ss : gmap string Timestamp) (as_of cutoff_days : Z)
    (file : list (UserRecord F)) :
  MatchBingo.script ss as_of cutoff_days (Some file)
  = ([MatchBingo.Title], Raise (KeyError "cust_lifetime_months")).
Proof.
  unfold MatchBingo.script.
  rewrite (app_read_data_and_prepare _ (as_of * ns_per_day))
    by apply lookup_insert_eq.
  unfold MatchBingo.metrics. unfold bind at 1.
  rewrite (tag_churn_run _ (as_of * ns_per_day) _ _ (map last_login_date file));
    [|apply lookup_insert_eq|unfold app_derived; lookup_columns; reflexivity].
  unfold bind at 1. unfold MatchBingo.calculate_avg_clv, app_derived, read_file.
  run_stage. cbn [mean as_floats]. lookup_columns. reflexivity.
Qed.

(** The dashboard's stages read the session for the as-of timestamp only. *)
Lemma dashboard_stages_read_as_of_only (ss ss' : gmap string Timestamp)
    (cut_off : Z) (file : list (UserRecord F)) (df : DataFrame F) :
  ss !! "as_of_ts" = ss' !! "as_of_ts" ->
  MatchBingo.read_data_and_prepare ss file
  = MatchBingo.read_data_and_prepare ss' file
  /\ MatchBingo.tag_churn ss cut_off df = MatchBingo.tag_churn ss' cut_off df.
Proof.
  intros Hss.
  unfold MatchBingo.read_data_and_prepare, MatchBingo.tag_churn,
    MatchBingo.session_get.
  rewrite Hss. split; reflexivity.
Qed.

(** The clock enters the batch run through the [churned] column only. *)
Lemma metrics_run (today : Timestamp) (obs : bool)
    (file : list (UserRecord F)) :
  Main.metrics today obs (batch_derived file)
  = (let* c := getitem "churned" in
     let* num_churned := lift (sum_bools c) in
     let* n := len in
     let* seg := Main.user_segmentation obs in
     ret (mean_of (map (fun u => f_mul (batch_revenue u) (batch_months u))
                       file),
          num_churned, f_div (f_of_int num_churned) (f_of_int n), seg))
      (Frame (length file)
         (<["churned" :=
              Bools (map (fun u => last_login_date u <? today - Timedelta 30)
                         file)]>
            (columns (batch_derived file)))).
Proof.
  unfold Main.metrics. unfold bind at 1.
  rewrite batch_calculate_avg_clv. unfold bind at 1.
  rewrite (identify_churn_users_run _ _ _ (map last_login_date file))
    by (unfold batch_derived; lookup_columns; reflexivity).
  rewrite map_map. reflexivity.
Qed.

(** C8, amended.  Two runs of the dashboard with the same upload, as-of
    date and cutoff show the same, whatever the session held before each.
    The batch script has no as-of input and reads the clock: two runs on the
    same file show the same whenever the two readings put every record's
    last login on the same side of the reading minus 30 days, as equal
    readings do. *)
Theorem runs_agree (ss ss' : gmap string Timestamp) (as_of cutoff_days : Z)
    (uploaded_file : option (list (UserRecord F)))
    (today today' : Timestamp) (obs : bool) (file : list (UserRecord F)) :
  (forall u, In u file ->
     (last_login_date u <? today - Timedelta 30)
     = (last_login_date u <? today' - Timedelta 30)) ->
  MatchBingo.script ss as_of cutoff_days uploaded_file
  = MatchBingo.script ss' as_of cutoff_days uploaded_file
  /\ Main.main today obs file = Main.main today' obs file.
Proof.
  intros Hflags. split.
  - destruct uploaded_file as [f|]; [|reflexivity].
    rewrite !script_raises. reflexivity.
  - unfold Main.main. rewrite batch_read_data_and_prepare.
    rewrite !metrics_run. rewrite (map_ext_in _ _ _ Hflags). reflexivity.
Qed.

End Runs.

Lemma runs_agree_witness :
  (forall u, In u two_users ->
     (last_login_date u <? day 95 - Timedelta 30)
     = (last_login_date u <? day 100 - Timedelta 30))
  /\ MatchBingo.script ∅ 90 30 (Some two_users)
     = MatchBingo.script {["as_of_ts" := day 1]} 90 30 (Some two_users)
  /\ Main.main (day 95) false two_users = Main.main (day 100) false two_users.
Proof.
  assert (Hflags : forall u, In u two_users ->
            (last_login_date u <? day 95 - Timedelta 30)
            = (last_login_date u <? day 100 - Timedelta 30)).
  { intros u [<-|[<-|[]]]; reflexivity. }
  split; [exact Hflags|].
  exact (runs_agree ∅ {["as_of_ts" := day 1]} 90 30 (Some two_users)
           (day 95) (day 100) false two_users Hflags).
Defined.

(** C8, as stated, fails for the batch script: on [two_users], whose last
    logins are on days 30 and 60, a run on day 40 prints no churned
    customer and a run on day 100 prints two. *)
Lemma batch_runs_differ_with_clock :
  churned_shown (Main.main (day 40) false two_users) = [0]
  /\ churned_shown (Main.main (day 100) false two_users) = [2]
  /\ Main.main (day 40) false two_users <> Main.main (day 100) false two_users.
Proof.
  split; [vm_compute; reflexivity|]. split; [vm_compute; reflexivity|].
  intros Heq. apply (f_equal churned_shown) in Heq. vm_compute in Heq.
  discriminate Heq.
Qed.

(** ** What the metric stages do to the table *)

Section FrameEffects.
Context {F : Type} `{Float64 F}.

(** The estimators only read. *)
Lemma batch_clv_reads_only :
  frame_effect (F := F) Main.calculate_avg_clv None.
Proof.
  intros df a df'. unfold Main.calculate_avg_clv. run_stage.
  destruct (columns df !! "monthly_revenue") as [r|]; [|discriminate].
  destruct (columns df !! "cust_lifetime_months") as [m|]; [|discriminate].
  destruct (mul r m) as [p|e]; [|discriminate].
  destruct (mean p) as [v|e]; [|discriminate].
  intros [= _ <-]. reflexivity.
Qed.

Lemma app_clv_reads_only :
  frame_effect (F := F) MatchBingo.calculate_avg_clv None.
Proof.
  intros df a df'. unfold MatchBingo.calculate_avg_clv. run_stage.
  destruct (columns df !! "monthly_revenue") as [r|]; [|discriminate].
  destruct (mean r) as [v|e]; [|discriminate].
  destruct (columns df !! "cust_lifetime_months") as [m|]; [|discriminate].
  destruct (mean m) as [w|e]; [|discriminate].
  intros [= _ <-]. reflexivity.
Qed.

(** A write to one column leaves the others and the index alone. *)
Lemma writes_one_column (df : DataFrame F) (k0 : string) (c : column F) :
  nrows (Frame (nrows df) (<[k0 := c]> (columns df))) = nrows df
  /\ is_Some (columns (Frame (nrows df) (<[k0 := c]> (columns df))) !! k0)
  /\ forall k, k <> k0 ->
       columns (Frame (nrows df) (<[k0 := c]> (columns df))) !! k
       = columns df !! k.
Proof.
  cbn [nrows columns]. split; [reflexivity|]. split.
  - rewrite lookup_insert_eq. eauto.
  - intros k Hk. apply lookup_insert_ne. congruence.
Qed.

Lemma identify_churn_users_writes (today : Timestamp) (cutoff_days : Z) :
  frame_effect (F := F) (Main.identify_churn_users today cutoff_days)
    (Some "churned").
Proof.
  intros df a df'. unfold Main.identify_churn_users. run_stage.
  destruct (columns df !! "last_login_date") as [l|]; [|discriminate].
  destruct (lt_timestamp l _) as [c|e]; [|discriminate].
  intros [= _ <-]. apply writes_one_column.
Qed.

Lemma tag_churn_writes (ss : gmap string Timestamp) (cut_off : Z) :
  frame_effect (F := F) (MatchBingo.tag_churn ss cut_off) (Some "churned").
Proof.
  intros df a df'. unfold MatchBingo.tag_churn, MatchBingo.session_get.
  run_stage.
  destruct (ss !! "as_of_ts") as [t|]; [|discriminate].
  destruct (columns df !! "last_login_date") as [l|]; [|discriminate].
  destruct (lt_timestamp l _) as [c|e]; [|discriminate].
  intros [= _ <-]. apply writes_one_column.
Qed.

Lemma user_segmentation_writes (obs : bool) :
  frame_effect (F := F) (Main.user_segmentation obs)
    (Some "games_played_quartile").
Proof.
  intros df a df'. rewrite user_segmentation_unfold.
  destruct (columns df !! "total_games_played") as [g|]; [|discriminate].
  destruct (as_ints g) as [x|e]; [|discriminate].
  destruct (qcut x labels dup_raise) as [cats|e]; [|discriminate].
  destruct (columns df !! "total_deposit") as [d|]; [|discriminate].
  destruct (as_floats d) as [vals|e]; [|discriminate].
  intros [= _ <-]. apply writes_one_column.
Qed.

Lemma quartile_summary_writes :
  frame_effect (F := F) MatchBingo.quartile_summary (Some "games_quartile").
Proof.
  intros df a df'. rewrite quartile_summary_unfold.
  destruct (columns df !! "total_games_played") as [g|]; [|discriminate].
  destruct (as_ints g) as [x|e]; [|discriminate].
  destruct (qcut x labels dup_drop) as [cats|e]; [|discriminate].
  destruct (columns df !! "total_deposit") as [d|]; [|discriminate].
  destruct (as_floats d) as [vals|e]; [|discriminate].
  intros [= _ <-]. apply writes_one_column.
Qed.

(** The derivation stages write neither [churned] nor a bucket column. *)
Lemma derived_columns (as_of_ts : Timestamp) (file : list (UserRecord F))
    (k : string) :
  (is_Some (columns (batch_derived file) !! k) ->
   k <> "churned" /\ k <> "games_played_quartile")
  /\ (is_Some (columns (app_derived as_of_ts file) !! k) ->
      k <> "churned" /\ k <> "games_quartile").
Proof.
  unfold batch_derived, app_derived, read_file. cbn [columns].
  split; intros [c Hc]; split; intros ->; revert Hc; lookup_columns;
    discriminate.
Qed.

(** C9, amended.  Whenever a metric stage returns, it has left the row
    count and every column but its own as they were: the two estimators
    write nothing; the two churn taggers write the column [churned]; the two
    bucketing stages write [games_played_quartile] and [games_quartile].
    None of these three columns is in a table that a derivation stage
    produced, so every column of the derived table is kept. *)
Theorem metric_stages_frame (today : Timestamp)
    (ss : gmap string Timestamp) (cutoff_days : Z) (obs : bool) :
  frame_effect (F := F) Main.calculate_avg_clv None
  /\ frame_effect (F := F) MatchBingo.calculate_avg_clv None
  /\ frame_effect (F := F) (Main.identify_churn_users today cutoff_days)
       (Some "churned")
  /\ frame_effect (F := F) (MatchBingo.tag_churn ss cutoff_days)
       (Some "churned")
  /\ frame_effect (F := F) (Main.user_segmentation obs)
       (Some "games_played_quartile")
  /\ frame_effect (F := F) MatchBingo.quartile_summary (Some "games_quartile")
  /\ (forall as_of_ts (file : list (UserRecord F)) k,
        (is_Some (columns (batch_derived file) !! k) ->
         k <> "churned" /\ k <> "games_played_quartile")
        /\ (is_Some (columns (app_derived as_of_ts file) !! k) ->
            k <> "churned" /\ k <> "games_quartile")).
Proof.
  split; [apply batch_clv_reads_only|].
  split; [apply app_clv_reads_only|].
  split; [apply identify_churn_users_writes|].
  split; [apply tag_churn_writes|].
  split; [apply user_segmentation_writes|].
  split; [apply quartile_summary_writes|].
  intros as_of_ts file k. apply derived_columns.
Qed.

End FrameEffects.

(** C9, as stated, fails: the batch churn tagger is not read-only.  Run on
    the table derived from [two_users], which has no column [churned], it
    returns that table with the column written into it. *)
Lemma churn_tagger_changes_the_frame :
  exists df',
    Main.identify_churn_users (day 90) 30 (batch_derived two_users)
    = Ok (tt, df')
    /\ columns (batch_derived two_users) !! "churned" = None
    /\ columns df' !! "churned" = Some (Bools [true; false])
    /\ df' <> batch_derived two_users.
Proof.
  eexists. split.
  { apply (identify_churn_users_run _ _ _ [day 30; day 60]).
    vm_compute. reflexivity. }
  split; [vm_compute; reflexivity|]. split; [vm_compute; reflexivity|].
  intros Heq. apply (f_equal (fun d => columns d !! "churned")) in Heq.
  vm_compute in Heq. discriminate Heq.
Qed.

(** * Further properties *)

(** ** Runs of the two scripts *)

Lemma filter_id_map {A} (p : A -> bool) (l : list A) :
  length (List.filter id (map p l)) = length (List.filter p l).
Proof.
  induction l as [|a l IH]; [reflexivity|]. cbn [map List.filter].
  unfold id at 1. destruct (p a); cbn [length]; rewrite IH; reflexivity.
Qed.

Lemma remove_dups_length_le {A} `{EqDecision A} (l : list A) :
  (length (remove_dups l) <= length l)%nat.
Proof.
  induction l as [|a l IH]; simpl; [lia|].
  destruct (decide_rel elem_of a l); simpl; lia.
Qed.

Lemma remove_dups_length_NoDup {A} `{EqDecision A} (l : list A) :
  length (remove_dups l) = length l -> NoDup l.
Proof.
  induction l as [|a l IH]; simpl; [constructor|].
  destruct (decide_rel elem_of a l) as [Hin|Hin]; simpl.
  - pose proof (remove_dups_length_le l). lia.
  - intros Hlen. constructor; [exact Hin|]. apply IH. lia.
Qed.

(** Two equal edges make [qcut] raise, in either mode: by default for the
    edges, with [duplicates="drop"] for the four labels, which no longer
    fit the edges left. *)
Lemma qcut_tied (x : list Z) :
  ~ NoDup (quartile_edges x) ->
  qcut x labels dup_raise = Raise (ValueError "Bin edges must be unique")
  /\ qcut x labels dup_drop
     = Raise (ValueError
                "Bin labels must be one fewer than the number of bin edges").
Proof.
  intros Hdup.
  assert (Hlt : (length (remove_dups (quartile_edges x)) < 5)%nat).
  { pose proof (remove_dups_length_le (quartile_edges x)) as Hle.
    rewrite quartile_edges_length in Hle.
    destruct (decide (length (remove_dups (quartile_edges x)) = 5%nat))
      as [He|]; [|lia].
    exfalso. apply Hdup, remove_dups_length_NoDup. rewrite He. reflexivity. }
  unfold qcut. rewrite quartile_edges_length.
  rewrite (proj2 (Nat.ltb_lt _ _) Hlt). cbn [andb negb Nat.eqb].
  split; [reflexivity|].
  replace (length labels =? length (remove_dups (quartile_edges x)) - 1)%nat
    with false; [reflexivity|].
  symmetry. apply Nat.eqb_neq. cbn [labels length]. lia.
Qed.

Lemma qcut_ok_inv (x : list Z) (dup : duplicates)
    (cats : list (option label)) :
  qcut x labels dup = Ok cats ->
  NoDup (quartile_edges x) /\ cats = map (bucket_of (quartile_edges x)) x.
Proof.
  intros Hq. destruct (decide (NoDup (quartile_edges x))) as [Hnd|Hnd].
  - split; [exact Hnd|]. rewrite (qcut_distinct_edges _ _ Hnd) in Hq.
    congruence.
  - destruct (qcut_tied x Hnd) as [H1 H2]. destruct dup; congruence.
Qed.

Lemma qcut_length (x : list Z) (dup : duplicates)
    (cats : list (option label)) :
  qcut x labels dup = Ok cats -> length cats = length x.
Proof.
  intros Hq. destruct (qcut_ok_inv _ _ _ Hq) as [_ ->]. apply length_map.
Qed.

Section ScriptRuns.
Context {F : Type} `{Float64 F}.

(** A run of [main], stage by stage. *)
Lemma main_run (today : Timestamp) (obs : bool) (file : list (UserRecord F)) :
  Main.main today obs file =
  if bool_decide (NoDup (quartile_edges (map total_games_played file)))
  then
    ([Main.Histogram (Datetimes (map date_joined file)) 6;
      Main.BarChart
        (groupby_mean obs
           (map (bucket_of (quartile_edges (map total_games_played file)))
                (map total_games_played file))
           (map total_deposit file));
      Main.MarkdownTable (batch_table today file);
      Main.Presented
        (mean_of (map (fun u => f_mul (batch_revenue u) (batch_months u))
                      file))
        (Z.of_nat (length (churned_users today file)))
        (Z.of_nat (length file))
        (f_div (f_of_int (Z.of_nat (length (churned_users today file))))
               (f_of_int (Z.of_nat (length file))))],
     Ok tt)
  else ([], Raise (ValueError "Bin edges must be unique")).
Proof.
  unfold Main.main. rewrite batch_read_data_and_prepare, metrics_run.
  unfold bind at 1. unfold getitem at 1. cbn [columns].
  rewrite lookup_insert_eq. unfold bind at 1. cbn [lift sum_bools as_bools].
  rewrite filter_id_map. fold (churned_users today file).
  unfold bind at 1. cbn [len nrows]. unfold bind at 1.
  rewrite user_segmentation_unfold. cbn [columns].
  unfold batch_derived, read_file. lookup_columns. cbn [as_ints as_floats].
  case_bool_decide as Hnd.
  - rewrite (qcut_distinct_edges _ _ Hnd). cbn [ret].
    unfold Main.plot_join_date_distribution, Main.plot_quartile_deposits,
      Main.summarise_fields, Main.present.
    run_stage. reflexivity.
  - destruct (qcut_tied _ Hnd) as [-> _]. reflexivity.
Qed.



End ScriptRuns.


Lemma Q2Qc_inject_le (a b : Z) :
  a <= b -> (Q2Qc (inject_Z a) <= Q2Qc (inject_Z b))%Qc.
Proof.
  intros Hab. unfold Qcle, Q2Qc. cbn [this]. rewrite !Qred_correct.
  rewrite <- Zle_Qle. exact Hab.
Qed.

Lemma Q2Qc_inject_lt (a b : Z) :
  a < b -> (Q2Qc (inject_Z a) < Q2Qc (inject_Z b))%Qc.
Proof.
  intros Hab. unfold Qclt, Q2Qc. cbn [this]. rewrite !Qred_correct.
  rewrite <- Zlt_Qlt. exact Hab.
Qed.

(** The exact quotient of a count by a larger positive count. *)
Lemma x_of_int_ratio (k n : Z) :
  0 <= k <= n -> 0 < n ->
  exists q : Qc,
    x_div (x_of_int k) (x_of_int n) = XFin q
    /\ (0 <= q)%Qc /\ (q <= 1)%Qc
    /\ (q * Q2Qc (inject_Z n) = Q2Qc (inject_Z k))%Qc.
Proof.
  intros Hk Hn.
  assert (Hn0 : Q2Qc (inject_Z n) <> 0%Qc)
    by (apply Q2Qc_inject_nonzero; lia).
  assert (Hpos : (0 < Q2Qc (inject_Z n))%Qc)
    by (apply (Q2Qc_inject_lt 0 n); lia).
  exists (Q2Qc (inject_Z k) / Q2Qc (inject_Z n))%Qc.
  assert (Hmul : (Q2Qc (inject_Z k) / Q2Qc (inject_Z n) * Q2Qc (inject_Z n)
                  = Q2Qc (inject_Z k))%Qc) by (field; exact Hn0).
  split.
  { unfold x_div, x_of_int. rewrite (q_is0_false _ Hn0). reflexivity. }
  split; [|split; [|exact Hmul]].
  - apply (Qcmult_lt_0_le_reg_r _ _ _ Hpos). rewrite Hmul.
    replace (0 * Q2Qc (inject_Z n))%Qc with 0%Qc by ring.
    apply (Q2Qc_inject_le 0 k). lia.
  - apply (Qcmult_lt_0_le_reg_r _ _ _ Hpos). rewrite Hmul.
    replace (1 * Q2Qc (inject_Z n))%Qc with (Q2Qc (inject_Z n)) by ring.
    apply (Q2Qc_inject_le k n). lia.
Qed.

(** X3. In exact arithmetic, whenever a run of [main] ends normally, the
    churn rate it prints is a number [q] with [0 <= q <= 1], and [q] times
    the row count is the number of churned records. *)
Theorem churn_rate_in_unit_interval_exact (today : Timestamp) (obs : bool)
    (file : list (UserRecord xnum)) (outs : list (Main.output xnum)) :
  Main.main today obs file = (outs, Ok tt) ->
  exists clv (q : Qc),
    outs !! 3%nat
    = Some (Main.Presented clv
              (Z.of_nat (length (churned_users today file)))
              (Z.of_nat (length file)) (XFin q))
    /\ (0 <= q)%Qc /\ (q <= 1)%Qc
    /\ (q * Q2Qc (inject_Z (Z.of_nat (length file)))
        = Q2Qc (inject_Z (Z.of_nat (length (churned_users today file)))))%Qc.
Proof.
  rewrite main_run. case_bool_decide as Hnd; [|discriminate].
  intros [= <-].
  assert (Hne : file <> []).
  { intros ->. exact (distinct_edges_nonempty [] Hnd eq_refl). }
  assert (Hn : 0 < Z.of_nat (length file)) by (destruct file; simpl; [congruence|lia]).
  assert (Hk : 0 <= Z.of_nat (length (churned_users today file))
               <= Z.of_nat (length file)).
  { unfold churned_users.
    pose proof (List.filter_length_le
                  (fun u : UserRecord xnum =>
                     last_login_date u <? today - Timedelta 30) file). lia. }
  destruct (x_of_int_ratio _ _ Hk Hn) as (q & Hq & H0 & H1 & Hm).
  eexists _, q. split; [rewrite <- Hq; reflexivity|auto].
Qed.

(** On [two_users_exact], on day 90: one of the two customers has churned
    and the rate printed is 1/2. *)
Lemma churn_rate_in_unit_interval_exact_witness :
  Main.main (day 90) false two_users_exact
  = ((Main.main (day 90) false two_users_exact).1, Ok tt)
  /\ exists clv (q : Qc),
      (Main.main (day 90) false two_users_exact).1 !! 3%nat
      = Some (Main.Presented clv
                (Z.of_nat (length (churned_users (day 90) two_users_exact)))
                (Z.of_nat (length two_users_exact)) (XFin q))
      /\ (0 <= q)%Qc /\ (q <= 1)%Qc
      /\ (q * Q2Qc (inject_Z (Z.of_nat (length two_users_exact)))
          = Q2Qc (inject_Z (Z.of_nat
                              (length (churned_users (day 90)
                                         two_users_exact)))))%Qc.
Proof.
  assert (Hrun : Main.main (day 90) false two_users_exact
                 = ((Main.main (day 90) false two_users_exact).1, Ok tt)).
  { rewrite main_run. vm_compute bool_decide. reflexivity. }
  split; [exact Hrun|].
  exact (churn_rate_in_unit_interval_exact _ _ _ _ Hrun).
Defined.

(** ** The derivation stages *)

Section DerivedFrames.
Context {F : Type} `{Float64 F}.

Lemma derived_well_formed (as_of_ts : Timestamp) (file : list (UserRecord F)) :
  well_formed (batch_derived file) /\ well_formed (app_derived as_of_ts file).
Proof.
  split; intros k c; unfold batch_derived, app_derived, read_file;
    cbn [columns nrows]; rewrite !lookup_insert;
    repeat case_decide; intros [= <-] || rewrite lookup_empty;
    try discriminate; cbn [column_len]; apply length_map.
Qed.

Lemma well_formed_insert (df : DataFrame F) (k : string) (c : column F) :
  well_formed df -> column_len c = nrows df ->
  well_formed (Frame (nrows df) (<[k := c]> (columns df))).
Proof.
  intros Hwf Hc k' c'. cbn [columns nrows]. rewrite lookup_insert.
  case_decide; [intros [= <-]; exact Hc|apply Hwf].
Qed.

Lemma churn_column_well_formed (lim : Z) (df : DataFrame F)
    (l c : column F) :
  well_formed df ->
  columns df !! "last_login_date" = Some l -> lt_timestamp l lim = Ok c ->
  well_formed (Frame (nrows df) (<["churned" := c]> (columns df))).
Proof.
  intros Hwf Hl Hc. apply well_formed_insert; [exact Hwf|].
  specialize (Hwf _ _ Hl). destruct l; try discriminate.
  cbn in Hc. injection Hc as <-. cbn [column_len] in *.
  rewrite length_map. exact Hwf.
Qed.

Lemma bucket_column_well_formed (dup : duplicates) (df : DataFrame F)
    (g : column F) (x : list Z) (cats : list (option label)) (k : string) :
  well_formed df ->
  columns df !! "total_games_played" = Some g ->
  as_ints g = Ok x -> qcut x labels dup = Ok cats ->
  well_formed (Frame (nrows df) (<[k := Categories cats]> (columns df))).
Proof.
  intros Hwf Hg Hx Hq. apply well_formed_insert; [exact Hwf|].
  specialize (Hwf _ _ Hg). destruct g; try discriminate.
  injection Hx as <-. cbn [column_len] in *.
  rewrite (qcut_length _ _ _ Hq). exact Hwf.
Qed.

(** X5. Every column of a derived table has one entry per row, and every
    metric stage that returns keeps it so: the flags written by the churn
    taggers and the buckets written by the bucketing stages have one entry
    per row. *)
Theorem frames_stay_well_formed (today : Timestamp)
    (ss : gmap string Timestamp) (cutoff : Z) (obs : bool)
    (as_of_ts : Timestamp) (file : list (UserRecord F)) :
  well_formed (batch_derived file)
  /\ well_formed (app_derived as_of_ts file)
  /\ keeps_well_formed (F := F) Main.calculate_avg_clv
  /\ keeps_well_formed (F := F) MatchBingo.calculate_avg_clv
  /\ keeps_well_formed (F := F) (Main.identify_churn_users today cutoff)
  /\ keeps_well_formed (F := F) (MatchBingo.tag_churn ss cutoff)
  /\ keeps_well_formed (F := F) (Main.user_segmentation obs)
  /\ keeps_well_formed (F := F) MatchBingo.quartile_summary.
Proof.
  destruct (derived_well_formed as_of_ts file) as [W1 W2].
  split; [exact W1|]. split; [exact W2|].
  split; [|split; [|split; [|split; [|split]]]]; intros df a df' Hwf.
  - intros Hrun. rewrite (batch_clv_reads_only _ _ _ Hrun). exact Hwf.
  - intros Hrun. rewrite (app_clv_reads_only _ _ _ Hrun). exact Hwf.
  - unfold Main.identify_churn_users. run_stage.
    destruct (columns df !! "last_login_date") as [l|] eqn:Hl; [|discriminate].
    destruct (lt_timestamp l _) as [c|e] eqn:Hc; [|discriminate].
    intros [= _ <-]. exact (churn_column_well_formed _ _ _ _ Hwf Hl Hc).
  - unfold MatchBingo.tag_churn, MatchBingo.session_get. run_stage.
    destruct (ss !! "as_of_ts") as [t|]; [|discriminate].
    destruct (columns df !! "last_login_date") as [l|] eqn:Hl; [|discriminate].
    destruct (lt_timestamp l _) as [c|e] eqn:Hc; [|discriminate].
    intros [= _ <-]. exact (churn_column_well_formed _ _ _ _ Hwf Hl Hc).
  - rewrite user_segmentation_unfold.
    destruct (columns df !! "total_games_played") as [g|] eqn:Hg;
      [|discriminate].
    destruct (as_ints g) as [x|e] eqn:Hx; [|discriminate].
    destruct (qcut x labels dup_raise) as [cats|e] eqn:Hq; [|discriminate].
    destruct (columns df !! "total_deposit") as [d|]; [|discriminate].
    destruct (as_floats d) as [vals|e]; [|discriminate].
    intros [= _ <-]. exact (bucket_column_well_formed _ _ _ _ _ _ Hwf Hg Hx Hq).
  - rewrite quartile_summary_unfold.
    destruct (columns df !! "total_games_played") as [g|] eqn:Hg;
      [|discriminate].
    destruct (as_ints g) as [x|e] eqn:Hx; [|discriminate].
    destruct (qcut x labels dup_drop) as [cats|e] eqn:Hq; [|discriminate].
    destruct (columns df !! "total_deposit") as [d|]; [|discriminate].
    destruct (as_floats d) as [vals|e]; [|discriminate].
    intros [= _ <-]. exact (bucket_column_well_formed _ _ _ _ _ _ Hwf Hg Hx Hq).
Qed.

End DerivedFrames.

(** *** Records without lifetime *)

Lemma x_div_0_mul (a : xnum) :
  x_mul (x_div a (x_of_int 0)) (x_of_int 0) = XNaN.
Proof.
  destruct a as [p|s|]; cbn [x_div x_mul x_of_int]; try reflexivity.
  change (q_is0 (Q2Qc (inject_Z 0))) with true. cbn.
  destruct (q_is0 p); reflexivity.
Qed.

Lemma batch_months_zero (u : UserRecord xnum) :
  batch_days u = 0 -> batch_months u = x_of_int 0.
Proof.
  intros Hd. unfold batch_months. rewrite Hd. cbn [f_div f_of_int exact].
  apply (f_equal XFin). apply Qc_is_canon. reflexivity.
Qed.

(** In exact arithmetic the monthly revenue times the lifetime in months
    gives the deposit back, for every record of the dashboard and for the
    records of the batch script with a lifetime other than zero days; for
    those with zero days it gives NaN. *)
Lemma revenue_times_months_exact (as_of_ts : Timestamp)
    (u : UserRecord xnum) :
  f_mul (app_revenue as_of_ts u) (app_months as_of_ts u) = total_deposit u
  /\ (batch_days u <> 0 ->
      f_mul (batch_revenue u) (batch_months u) = total_deposit u)
  /\ (batch_days u = 0 -> f_mul (batch_revenue u) (batch_months u) = XNaN).
Proof.
  split; [|split].
  - unfold app_revenue.
    assert (Hm : exists q, app_months as_of_ts u = XFin q /\ q <> 0%Qc).
    { pose proof (app_months_nonzero_exact as_of_ts u) as Hnz.
      unfold app_months in *. cbn [f_div f_of_int exact] in *.
      unfold x_div, x_of_int in *.
      destruct (q_is0 (Q2Qc (inject_Z 30))) eqn:E; [discriminate E|].
      eexists. split; [reflexivity|]. intros Hq. apply Hnz. rewrite Hq.
      reflexivity. }
    destruct Hm as (q & -> & Hq). apply x_div_mul_cancel, Hq.
  - intros Hd. unfold batch_revenue. rewrite batch_months_exact.
    apply x_div_mul_cancel. intros Hq.
    apply (x_of_int_div_nonzero (batch_days u) 30 Hd ltac:(discriminate)).
    unfold x_div, x_of_int.
    destruct (q_is0 (Q2Qc (inject_Z 30))) eqn:E; [discriminate E|].
    rewrite Hq. reflexivity.
  - intros Hd. unfold batch_revenue. rewrite (batch_months_zero u Hd).
    apply x_div_0_mul.
Qed.

(** The mean skips NaN: entries that are NaN can be left out. *)
Lemma mean_of_skip {A} (g d : A -> xnum) (p : A -> bool) (l : list A) :
  (forall a, In a l -> g a = if p a then d a else XNaN) ->
  mean_of (map g l) = mean_of (map d (List.filter p l)).
Proof.
  intros Hg. unfold mean_of, count. rewrite !nansum_exact.
  assert (Hc : forall l,
            (forall a, In a l -> g a = if p a then d a else XNaN) ->
            length (List.filter (fun x => negb (f_isnan x)) (map g l))
            = length (List.filter (fun x => negb (f_isnan x))
                        (map d (List.filter p l)))).
  { clear. induction l as [|a l IH]; intros Hg; [reflexivity|].
    cbn [map List.filter]. rewrite (Hg a (or_introl eq_refl)).
    specialize (IH (fun b Hb => Hg b (or_intror Hb))).
    destruct (p a); cbn [map List.filter].
    - destruct (negb (f_isnan (d a))); cbn [length]; rewrite IH; reflexivity.
    - change (negb (f_isnan XNaN)) with false. cbn iota. exact IH. }
  assert (Hs : forall l acc,
            (forall a, In a l -> g a = if p a then d a else XNaN) ->
            fold_left f_add
              (map (fun x => if f_isnan x then f_of_int 0 else x) (map g l))
              acc
            = fold_left f_add
                (map (fun x => if f_isnan x then f_of_int 0 else x)
                     (map d (List.filter p l))) acc).
  { clear. induction l as [|a l IH]; intros acc Hg; [reflexivity|].
    cbn [map List.filter fold_left]. rewrite (Hg a (or_introl eq_refl)).
    destruct (p a); cbn [map fold_left].
    - apply IH. intros b Hb. apply Hg. right. exact Hb.
    - change (f_isnan XNaN) with true. cbn iota.
      change (f_add acc (f_of_int 0)) with (x_add acc (x_of_int 0)).
      rewrite x_add_0_r. apply IH. intros b Hb. apply Hg. right. exact Hb. }
  rewrite (Hc l Hg), (Hs l _ Hg). reflexivity.
Qed.

(** X6. In exact arithmetic the batch CLV of any file is the mean of
    [total_deposit] over the records whose [cust_lifetime_days] is not
    zero: a record whose last login falls on the day of joining has the
    product [monthly_revenue * cust_lifetime_months = NaN], which the mean
    skips, so it drops out of the average. *)
Theorem batch_clv_skips_same_day_exact (file : list (UserRecord xnum)) :
  batch_clv file
  = Ok (mean_of (map total_deposit
                     (List.filter (fun u => negb (batch_days u =? 0)) file))).
Proof.
  rewrite batch_clv_eq. f_equal. apply mean_of_skip. intros u _.
  destruct (revenue_times_months_exact 0 u) as (_ & Hnz & Hz).
  destruct (batch_days u =? 0) eqn:E; cbn [negb].
  - apply Hz. apply Z.eqb_eq, E.
  - apply Hnz. apply Z.eqb_neq, E.
Qed.

(** ** The churn taggers *)

Section ChurnTagging.
Context {F : Type} `{Float64 F}.

Lemma tagged_frame (today : Timestamp) (ss : gmap string Timestamp)
    (cutoff : Z) (df df1 : DataFrame F) :
  Main.identify_churn_users today cutoff df = Ok (tt, df1)
  \/ MatchBingo.tag_churn ss cutoff df = Ok (tt, df1) ->
  exists c, df1 = Frame (nrows df) (<["churned" := c]> (columns df)).
Proof.
  intros [Hrun|Hrun]; revert Hrun.
  - unfold Main.identify_churn_users. run_stage.
    destruct (columns df !! "last_login_date") as [l|]; [|discriminate].
    destruct (lt_timestamp l _) as [c|e]; [|discriminate].
    intros [= <-]. eexists. reflexivity.
  - unfold MatchBingo.tag_churn, MatchBingo.session_get. run_stage.
    destruct (ss !! "as_of_ts") as [t|]; [|discriminate].
    destruct (columns df !! "last_login_date") as [l|]; [|discriminate].
    destruct (lt_timestamp l _) as [c|e]; [|discriminate].
    intros [= <-]. eexists. reflexivity.
Qed.

Lemma retag (today : Timestamp) (ss : gmap string Timestamp) (cutoff : Z)
    (df : DataFrame F) (c : column F) :
  Main.identify_churn_users today cutoff
    (Frame (nrows df) (<["churned" := c]> (columns df)))
  = Main.identify_churn_users today cutoff df
  /\ MatchBingo.tag_churn ss cutoff
       (Frame (nrows df) (<["churned" := c]> (columns df)))
     = MatchBingo.tag_churn ss cutoff df.
Proof.
  unfold Main.identify_churn_users, MatchBingo.tag_churn,
    MatchBingo.session_get. run_stage. split.
  - destruct (columns df !! "last_login_date") as [l|]; [|reflexivity].
    destruct (lt_timestamp l _) as [c'|e]; [|reflexivity].
    cbn [columns nrows]. rewrite insert_insert_eq. reflexivity.
  - destruct (ss !! "as_of_ts") as [t|]; [|reflexivity]. lookup_columns.
    destruct (columns df !! "last_login_date") as [l|]; [|reflexivity].
    destruct (lt_timestamp l _) as [c'|e]; [|reflexivity].
    cbn [columns nrows]. rewrite insert_insert_eq. reflexivity.
Qed.

(** X7. Tagging again overwrites the flags and keeps nothing of the earlier
    run: on a table that either tagger has already tagged, each tagger, for
    any as-of timestamp and any cutoff, returns what it returns on the
    table before the tagging. *)
Theorem churn_retagging (today today' : Timestamp)
    (ss ss' : gmap string Timestamp) (cutoff cutoff' : Z)
    (df df1 : DataFrame F) :
  Main.identify_churn_users today cutoff df = Ok (tt, df1)
  \/ MatchBingo.tag_churn ss cutoff df = Ok (tt, df1) ->
  Main.identify_churn_users today' cutoff' df1
  = Main.identify_churn_users today' cutoff' df
  /\ MatchBingo.tag_churn ss' cutoff' df1 = MatchBingo.tag_churn ss' cutoff' df.
Proof.
  intros Hrun. destruct (tagged_frame _ _ _ _ _ Hrun) as [c ->].
  apply retag.
Qed.

Lemma filter_length_mono {A} (p p' : A -> bool) (l : list A) :
  (forall a, p a = true -> p' a = true) ->
  (length (List.filter p l) <= length (List.filter p' l))%nat.
Proof.
  intros Hp. induction l as [|a l IH]; [reflexivity|]. cbn [List.filter].
  destruct (p a) eqn:E.
  - rewrite (Hp a E). cbn [length]. lia.
  - destruct (p' a); cbn [length]; lia.
Qed.

Lemma flags_shrink (l : list Timestamp) (lim lim' : Z) :
  lim <= lim' ->
  (forall i, map (fun x => x <? lim) l !! i = Some true ->
             map (fun x => x <? lim') l !! i = Some true)
  /\ (length (List.filter id (map (fun x => (x <? lim)%Z) l))
      <= length (List.filter id (map (fun x => (x <? lim')%Z) l)))%nat.
Proof.
  intros Hlim. split.
  - intros i. rewrite !lookup_map. destruct (l !! i) as [x|]; [|discriminate].
    cbn. intros [= Hx]. f_equal. apply Z.ltb_lt in Hx. apply Z.ltb_lt. lia.
  - rewrite !filter_id_map. apply filter_length_mono.
    intros x Hx. apply Z.ltb_lt in Hx. apply Z.ltb_lt. lia.
Qed.

(** X8. The flags grow with the limit.  On a table with a datetime column
    [last_login_date] both taggers return for every as-of timestamp and
    cutoff, and write the same flags for the same timestamp and cutoff;
    when the limit [as-of - cutoff days] of one run is not after that of
    another, every row flagged by the first is flagged by the second, and
    the count of churned users, which is the number of flags set, is no
    larger. *)
Theorem churn_grows_with_limit (ss ss' : gmap string Timestamp)
    (t t' : Timestamp) (c c' : Z) (df : DataFrame F) (l : list Timestamp) :
  ss !! "as_of_ts" = Some t -> ss' !! "as_of_ts" = Some t' ->
  columns df !! "last_login_date" = Some (Datetimes l) ->
  t - Timedelta c <= t' - Timedelta c' ->
  exists f f',
    MatchBingo.tag_churn ss c df
    = Ok (tt, Frame (nrows df) (<["churned" := Bools f]> (columns df)))
    /\ MatchBingo.tag_churn ss' c' df
       = Ok (tt, Frame (nrows df) (<["churned" := Bools f']> (columns df)))
    /\ Main.identify_churn_users t c df
       = Ok (tt, Frame (nrows df) (<["churned" := Bools f]> (columns df)))
    /\ Main.identify_churn_users t' c' df
       = Ok (tt, Frame (nrows df) (<["churned" := Bools f']> (columns df)))
    /\ (forall i, f !! i = Some true -> f' !! i = Some true)
    /\ sum_bools (F := F) (Bools f) = Ok (Z.of_nat (length (List.filter id f)))
    /\ (length (List.filter id f) <= length (List.filter id f'))%nat.
Proof.
  intros Hss Hss' Hl Hlim.
  exists (map (fun x => x <? t - Timedelta c) l),
         (map (fun x => x <? t' - Timedelta c') l).
  split; [apply (tag_churn_run _ _ _ _ _ Hss Hl)|].
  split; [apply (tag_churn_run _ _ _ _ _ Hss' Hl)|].
  split; [apply (identify_churn_users_run _ _ _ _ Hl)|].
  split; [apply (identify_churn_users_run _ _ _ _ Hl)|].
  destruct (flags_shrink l _ _ Hlim) as [H1 H2].
  split; [exact H1|]. split; [reflexivity|exact H2].
Qed.

End ChurnTagging.

Lemma churn_retagging_witness :
  (Main.identify_churn_users (day 90) 30 (batch_derived two_users)
   = Ok (tt, Frame 2 (<["churned" := Bools [true; false]]>
                        (columns (batch_derived two_users))))
   \/ MatchBingo.tag_churn ∅ 30 (batch_derived two_users)
      = Ok (tt, Frame 2 (<["churned" := Bools [true; false]]>
                           (columns (batch_derived two_users)))))
  /\ Main.identify_churn_users (day 40) 7
       (Frame 2 (<["churned" := Bools [true; false]]>
                   (columns (batch_derived two_users))))
     = Main.identify_churn_users (day 40) 7 (batch_derived two_users)
  /\ MatchBingo.tag_churn {["as_of_ts" := day 40]} 7
       (Frame 2 (<["churned" := Bools [true; false]]>
                   (columns (batch_derived two_users))))
     = MatchBingo.tag_churn {["as_of_ts" := day 40]} 7
         (batch_derived two_users).
Proof.
  assert (Hrun :
    Main.identify_churn_users (day 90) 30 (batch_derived two_users)
    = Ok (tt, Frame 2 (<["churned" := Bools [true; false]]>
                         (columns (batch_derived two_users))))
    \/ MatchBingo.tag_churn ∅ 30 (batch_derived two_users)
       = Ok (tt, Frame 2 (<["churned" := Bools [true; false]]>
                            (columns (batch_derived two_users))))).
  { left.
    apply (identify_churn_users_run (day 90) 30 (batch_derived two_users)
             [day 30; day 60]).
    vm_compute. reflexivity. }
  split; [exact Hrun|].
  exact (churn_retagging (day 90) (day 40) ∅ {["as_of_ts" := day 40]} 30 7
           _ _ Hrun).
Defined.

Lemma churn_grows_with_limit_witness :
  ({["as_of_ts" := day 50]} : gmap string Timestamp) !! "as_of_ts"
    = Some (day 50)
  /\ ({["as_of_ts" := day 90]} : gmap string Timestamp) !! "as_of_ts"
     = Some (day 90)
  /\ columns (batch_derived two_users) !! "last_login_date"
     = Some (Datetimes [day 30; day 60])
  /\ day 50 - Timedelta 30 <= day 90 - Timedelta 45
  /\ exists f f',
      MatchBingo.tag_churn {["as_of_ts" := day 50]} 30
        (batch_derived two_users)
      = Ok (tt, Frame (nrows (batch_derived two_users))
                  (<["churned" := Bools f]>
                     (columns (batch_derived two_users))))
      /\ MatchBingo.tag_churn {["as_of_ts" := day 90]} 45
           (batch_derived two_users)
         = Ok (tt, Frame (nrows (batch_derived two_users))
                     (<["churned" := Bools f']>
                        (columns (batch_derived two_users))))
      /\ Main.identify_churn_users (day 50) 30 (batch_derived two_users)
         = Ok (tt, Frame (nrows (batch_derived two_users))
                     (<["churned" := Bools f]>
                        (columns (batch_derived two_users))))
      /\ Main.identify_churn_users (day 90) 45 (batch_derived two_users)
         = Ok (tt, Frame (nrows (batch_derived two_users))
                     (<["churned" := Bools f']>
                        (columns (batch_derived two_users))))
      /\ (forall i, f !! i = Some true -> f' !! i = Some true)
      /\ sum_bools (F := float) (Bools f)
         = Ok (Z.of_nat (length (List.filter id f)))
      /\ (length (List.filter id f) <= length (List.filter id f'))%nat.
Proof.
  assert (H1 : ({["as_of_ts" := day 50]} : gmap string Timestamp) !! "as_of_ts"
               = Some (day 50)) by (vm_compute; reflexivity).
  assert (H2 : ({["as_of_ts" := day 90]} : gmap string Timestamp) !! "as_of_ts"
               = Some (day 90)) by (vm_compute; reflexivity).
  assert (H3 : columns (batch_derived two_users) !! "last_login_date"
               = Some (Datetimes [day 30; day 60])) by (vm_compute; reflexivity).
  assert (H4 : day 50 - Timedelta 30 <= day 90 - Timedelta 45)
    by (vm_compute; discriminate).
  split; [exact H1|]. split; [exact H2|]. split; [exact H3|].
  split; [exact H4|].
  exact (churn_grows_with_limit _ _ _ _ 30 45 _ _ H1 H2 H3 H4).
Defined.

(** ** Quartile bucketing *)

Section BucketingRuns.
Context {F : Type} `{Float64 F}.

(** A bucketing stage that has returned has found distinct edges and
    written the bucket of every value. *)
Lemma bucketing_inv (df : DataFrame F) x cats :
  bucketing df x cats ->
  NoDup (quartile_edges x) /\ cats = map (bucket_of (quartile_edges x)) x.
Proof.
  intros [Hx [(obs & s & df' & Hrun & Hc)|(s & df' & Hrun & Hc)]].
  - rewrite user_segmentation_unfold, Hx in Hrun. cbn [as_ints] in Hrun.
    destruct (qcut x labels dup_raise) as [c|e] eqn:Hq; [|discriminate].
    destruct (columns df !! "total_deposit") as [d|]; [|discriminate].
    destruct (as_floats d) as [vals|e]; [|discriminate].
    injection Hrun as _ <-. cbn [columns] in Hc. rewrite lookup_insert_eq in Hc.
    injection Hc as <-. exact (qcut_ok_inv _ _ _ Hq).
  - rewrite quartile_summary_unfold, Hx in Hrun. cbn [as_ints] in Hrun.
    destruct (qcut x labels dup_drop) as [c|e] eqn:Hq; [|discriminate].
    destruct (columns df !! "total_deposit") as [d|]; [|discriminate].
    destruct (as_floats d) as [vals|e]; [|discriminate].
    injection Hrun as _ <-. cbn [columns] in Hc. rewrite lookup_insert_eq in Hc.
    injection Hc as <-. exact (qcut_ok_inv _ _ _ Hq).
Qed.
End BucketingRuns.

(** The quantiles of a sorted list grow with the fraction. *)
Lemma quantile4_mono (s : list Z) (k k' : nat) :
  StronglySorted Z.le s -> s <> [] -> (k <= k' <= 4)%nat ->
  exists u u', quantile4 s k = Some u /\ quantile4 s k' = Some u' /\ u <= u'.
Proof.
  intros Hs Hne Hk. destruct s as [|a0 s']; [congruence|].
  unfold quantile4. set (l := a0 :: s') in *. set (n := length l).
  assert (Hn : (1 <= n)%nat) by (unfold n, l; simpl; lia).
  set (pos := ((n - 1) * k)%nat). set (pos' := ((n - 1) * k')%nat).
  assert (Hpos : (pos <= pos')%nat) by (unfold pos, pos'; nia).
  assert (Hpos4 : (pos' <= (n - 1) * 4)%nat) by (unfold pos'; nia).
  pose proof (Nat.div_mod_eq pos 4) as Hd.
  pose proof (Nat.div_mod_eq pos' 4) as Hd'.
  pose proof (Nat.mod_upper_bound pos 4 ltac:(lia)) as Hr.
  pose proof (Nat.mod_upper_bound pos' 4 ltac:(lia)) as Hr'.
  set (j := (pos / 4)%nat) in *. set (j' := (pos' / 4)%nat) in *.
  set (r := (pos mod 4)%nat) in *. set (r' := (pos' mod 4)%nat) in *.
  assert (Hj' : (j' <= n - 1)%nat) by lia.
  assert (Hjj : (j <= j')%nat) by lia.
  do 2 eexists. split; [reflexivity|]. split; [reflexivity|].
  pose proof (sorted_nth_le l Hs j (Nat.min (j + 1) (n - 1))
                ltac:(fold n; lia)) as Hab.
  pose proof (sorted_nth_le l Hs j' (Nat.min (j' + 1) (n - 1))
                ltac:(fold n; lia)) as Hab'.
  destruct (decide (j = j')) as [Hjeq|Hjne].
  - rewrite <- Hjeq in *. assert (r <= r')%nat by lia. nia.
  - pose proof (sorted_nth_le l Hs (Nat.min (j + 1) (n - 1)) j'
                  ltac:(fold n; lia)) as Hba.
    nia.
Qed.

(** The five edges of a column that is not empty exist, are in order, run
    from the least to the largest value, and enclose every value. *)
Lemma quartile_edges_sorted (x : list Z) :
  x <> [] ->
  exists e0 e1 e2 e3 e4,
    quartile_edges x = [Some e0; Some e1; Some e2; Some e3; Some e4]
    /\ e0 <= e1 <= e2 /\ e2 <= e3 <= e4
    /\ (forall v, In v x -> e0 <= 4 * v <= e4)
    /\ (exists v, In v x /\ e0 = 4 * v) /\ (exists v, In v x /\ e4 = 4 * v).
Proof.
  intros Hx. unfold quartile_edges.
  pose proof (merge_sort_Permutation Z.le x) as Hp.
  pose proof (StronglySorted_merge_sort Z.le x) as Hs.
  assert (Hne : merge_sort Z.le x <> []).
  { intros He. rewrite He in Hp. apply Permutation_nil in Hp. congruence. }
  set (s := merge_sort Z.le x) in *.
  destruct (quantile4_mono s 0 1 Hs Hne ltac:(lia))
    as (e0 & e1 & H0 & H1 & H01).
  destruct (quantile4_mono s 1 2 Hs Hne ltac:(lia))
    as (e1' & e2 & H1' & H2 & H12).
  destruct (quantile4_mono s 2 3 Hs Hne ltac:(lia))
    as (e2' & e3 & H2' & H3 & H23).
  destruct (quantile4_mono s 3 4 Hs Hne ltac:(lia))
    as (e3' & e4 & H3' & H4 & H34).
  assert (e1' = e1) by congruence. assert (e2' = e2) by congruence.
  assert (e3' = e3) by congruence. subst.
  exists e0, e1, e2, e3, e4. cbn [map seq]. rewrite H0, H1, H2, H3, H4.
  split; [reflexivity|]. split; [lia|]. split; [lia|].
  destruct s as [|a s'] eqn:Es; [congruence|].
  rewrite quantile4_first in H0. rewrite quantile4_last in H4.
  assert (He0 : e0 = 4 * nth 0 (a :: s') 0) by congruence.
  assert (He4 : e4 = 4 * nth (length (a :: s') - 1) (a :: s') 0)
    by congruence.
  split; [|split].
  - intros v Hv. assert (Hin : In v (a :: s')).
    { apply (Permutation_in v (Permutation_sym Hp)). exact Hv. }
    pose proof (In_nth_between _ _ Hs Hin). lia.
  - exists (nth 0 (a :: s') 0). split; [|exact He0].
    apply (Permutation_in _ Hp). apply nth_In. simpl. lia.
  - exists (nth (length (a :: s') - 1) (a :: s') 0). split; [|exact He4].
    apply (Permutation_in _ Hp). apply nth_In. simpl. lia.
Qed.

Lemma quartile_edges_strict (x : list Z) :
  NoDup (quartile_edges x) ->
  exists e0 e1 e2 e3 e4,
    quartile_edges x = [Some e0; Some e1; Some e2; Some e3; Some e4]
    /\ e0 < e1 /\ e1 < e2 /\ e2 < e3 /\ e3 < e4
    /\ (forall v, In v x -> e0 <= 4 * v <= e4)
    /\ (exists v, In v x /\ e0 = 4 * v) /\ (exists v, In v x /\ e4 = 4 * v).
Proof.
  intros Hnd. pose proof (distinct_edges_nonempty x Hnd) as Hx.
  destruct (quartile_edges_sorted x Hx)
    as (e0 & e1 & e2 & e3 & e4 & He & H1 & H2 & Hb & Hmin & Hmax).
  exists e0, e1, e2, e3, e4. rewrite He in Hnd |- *.
  assert (e0 <> e1 /\ e1 <> e2 /\ e2 <> e3 /\ e3 <> e4) as (?&?&?&?).
  { apply NoDup_cons in Hnd as [Hn0 Hnd]. apply NoDup_cons in Hnd as [Hn1 Hnd].
    apply NoDup_cons in Hnd as [Hn2 Hnd]. apply NoDup_cons in Hnd as [Hn3 _].
    rewrite !not_elem_of_cons in Hn0, Hn1, Hn2, Hn3.
    repeat split; intros ->; tauto. }
  repeat split; try lia; auto. all: apply Hb; assumption.
Qed.

Lemma bucket_of_intervals (e0 e1 e2 e3 e4 v : Z) :
  e0 < e1 -> e1 < e2 -> e2 < e3 -> e3 < e4 -> e0 <= 4 * v <= e4 ->
  bucket_of [Some e0; Some e1; Some e2; Some e3; Some e4] v
  = Some (interval_label e1 e2 e3 v).
Proof.
  intros H01 H12 H23 H34 Hv. unfold interval_label, bucket_of, bin_id.
  cbn [edge_eq searchsorted edge_lt length].
  destruct (e0 =? 4 * v) eqn:E0.
  - apply Z.eqb_eq in E0. cbn.
    replace (4 * v <=? e1) with true by (symmetry; apply Z.leb_le; lia).
    reflexivity.
  - apply Z.eqb_neq in E0.
    replace (e0 <? 4 * v) with true by (symmetry; apply Z.ltb_lt; lia).
    destruct (4 * v <=? e1) eqn:E1; [apply Z.leb_le in E1|apply Z.leb_gt in E1].
    { replace (e1 <? 4 * v) with false
        by (symmetry; apply Z.ltb_ge; lia).
      reflexivity. }
    replace (e1 <? 4 * v) with true by (symmetry; apply Z.ltb_lt; lia).
    destruct (4 * v <=? e2) eqn:E2; [apply Z.leb_le in E2|apply Z.leb_gt in E2].
    { replace (e2 <? 4 * v) with false
        by (symmetry; apply Z.ltb_ge; lia).
      reflexivity. }
    replace (e2 <? 4 * v) with true by (symmetry; apply Z.ltb_lt; lia).
    destruct (4 * v <=? e3) eqn:E3; [apply Z.leb_le in E3|apply Z.leb_gt in E3].
    { replace (e3 <? 4 * v) with false
        by (symmetry; apply Z.ltb_ge; lia).
      reflexivity. }
    replace (e3 <? 4 * v) with true by (symmetry; apply Z.ltb_lt; lia).
    replace (e4 <? 4 * v) with false by (symmetry; apply Z.ltb_ge; lia). reflexivity.
Qed.

(** The edges are read off the sorted column, so the row order does not
    change them. *)
Lemma quartile_edges_perm (x x' : list Z) :
  Permutation x x' -> quartile_edges x = quartile_edges x'.
Proof.
  intros Hp. unfold quartile_edges.
  replace (merge_sort Z.le x') with (merge_sort Z.le x); [reflexivity|].
  apply (StronglySorted_unique Z.le).
  - apply StronglySorted_merge_sort; apply _.
  - apply StronglySorted_merge_sort; apply _.
  - etransitivity; [apply merge_sort_Permutation|].
    etransitivity; [exact Hp|]. symmetry. apply merge_sort_Permutation.
Qed.

Lemma lookup_In {A} (l : list A) (i : nat) (a : A) : l !! i = Some a -> In a l.
Proof. intros Hi. apply list_elem_of_In. eapply list_elem_of_lookup_2, Hi. Qed.

Section BucketIntervals.
Context {F : Type} `{Float64 F}.

(** With distinct edges both stages return and write the buckets of the
    values. *)
Lemma stages_write_buckets (obs : bool) (df : DataFrame F) (x : list Z)
    (d : column F) (vals : list F) :
  columns df !! "total_games_played" = Some (Ints x) ->
  columns df !! "total_deposit" = Some d -> as_floats d = Ok vals ->
  NoDup (quartile_edges x) ->
  writes_buckets (Main.user_segmentation obs) "games_played_quartile" df
    (map (bucket_of (quartile_edges x)) x)
  /\ writes_buckets MatchBingo.quartile_summary "games_quartile" df
       (map (bucket_of (quartile_edges x)) x).
Proof.
  intros Hx Hd Hv Hnd. unfold writes_buckets.
  rewrite user_segmentation_unfold, quartile_summary_unfold, Hx, Hd.
  cbn [as_ints]. rewrite Hv, !(qcut_distinct_edges _ _ Hnd).
  split; eexists _, _; (split; [reflexivity|]); cbn [columns];
    apply lookup_insert_eq.
Qed.

End BucketIntervals.

Lemma In_lookup {A} (l : list A) (a : A) : In a l -> exists i, l !! i = Some a.
Proof. intros Hin. apply list_elem_of_In in Hin. apply list_elem_of_lookup_1, Hin. Qed.

Lemma population_pos (cats : list (option label)) (i : nat) (q : label) :
  cats !! i = Some (Some q) -> (1 <= population q cats)%nat.
Proof.
  revert i. unfold population.
  induction cats as [|c cats IH]; intros [|i] Hi; try discriminate.
  - injection Hi as ->. cbn [List.filter].
    rewrite bool_decide_eq_true_2 by reflexivity. simpl. lia.
  - cbn [List.filter]. specialize (IH i Hi).
    destruct (bool_decide (c = Some q)); simpl; lia.
Qed.

Lemma interval_label_mono (e1 e2 e3 v w : Z) :
  e1 < e2 -> e2 < e3 -> v <= w ->
  (label_rank (interval_label e1 e2 e3 v)
   <= label_rank (interval_label e1 e2 e3 w))%nat.
Proof.
  intros H12 H23 Hvw. unfold interval_label.
  repeat match goal with
  | |- context [?a <=? ?b] =>
      let E := fresh in destruct (a <=? b) eqn:E;
      [apply Z.leb_le in E|apply Z.leb_gt in E]
  end; simpl; lia.
Qed.

Section BucketOrder.
Context {F : Type} `{Float64 F}.

Lemma bucketing_cats (df : DataFrame F) (x : list Z)
    (cats : list (option label)) :
  bucketing df x cats ->
  exists e0 e1 e2 e3 e4,
    quartile_edges x = [Some e0; Some e1; Some e2; Some e3; Some e4]
    /\ e0 < e1 /\ e1 < e2 /\ e2 < e3 /\ e3 < e4
    /\ (forall v, In v x -> e0 <= 4 * v <= e4)
    /\ (exists v, In v x /\ e0 = 4 * v) /\ (exists v, In v x /\ e4 = 4 * v)
    /\ cats = map (fun v => Some (interval_label e1 e2 e3 v)) x.
Proof.
  intros Hb. destruct (bucketing_inv _ _ _ Hb) as [Hnd ->].
  destruct (quartile_edges_strict x Hnd)
    as (e0 & e1 & e2 & e3 & e4 & He & H01 & H12 & H23 & H34 & Hr & Hmin & Hmax).
  exists e0, e1, e2, e3, e4. rewrite He.
  repeat (split; [assumption||reflexivity|]).
  apply map_ext_in. intros v Hv. apply bucket_of_intervals; auto.
Qed.

(** X10. The buckets follow the order of the values: when a bucketing
    stage has returned, a row with no more games played than another has
    a bucket no later in the order Q1, Q2, Q3, Q4, and rows with equal
    games played share their bucket. *)
Theorem buckets_monotone (df : DataFrame F) (x : list Z)
    (cats : list (option label)) (i j : nat) (v w : Z)
    (c c' : option label) :
  bucketing df x cats ->
  x !! i = Some v -> x !! j = Some w ->
  cats !! i = Some c -> cats !! j = Some c' ->
  (v <= w -> (bucket_rank c <= bucket_rank c')%nat) /\ (v = w -> c = c').
Proof.
  intros Hb Hi Hj Hc Hc'.
  destruct (bucketing_cats _ _ _ Hb)
    as (e0 & e1 & e2 & e3 & e4 & _ & _ & H12 & H23 & _ & _ & _ & _ & ->).
  rewrite lookup_map, Hi in Hc. rewrite lookup_map, Hj in Hc'.
  injection Hc as <-. injection Hc' as <-. split.
  - intros Hvw. cbn [bucket_rank]. apply interval_label_mono; assumption.
  - intros ->. reflexivity.
Qed.

(** X11. When a bucketing stage has returned, every row with the least
    number of games played is in Q1 and every row with the largest is in
    Q4, so Q1 and Q4 are both populated and at least two of the four
    buckets are. *)
Theorem extreme_buckets (df : DataFrame F) (x : list Z)
    (cats : list (option label)) :
  bucketing df x cats ->
  (forall i v, x !! i = Some v -> (forall w, In w x -> v <= w) ->
               cats !! i = Some (Some Q1))
  /\ (forall i v, x !! i = Some v -> (forall w, In w x -> w <= v) ->
                  cats !! i = Some (Some Q4))
  /\ (1 <= population Q1 cats)%nat /\ (1 <= population Q4 cats)%nat
  /\ (2 <= buckets cats <= 4)%nat.
Proof.
  intros Hb.
  destruct (bucketing_cats _ _ _ Hb)
    as (e0 & e1 & e2 & e3 & e4 & _ & H01 & H12 & H23 & H34 & Hr
        & (v0 & Hv0 & He0) & (w0 & Hw0 & He4) & ->).
  assert (Hlo : forall v, In v x -> 4 * v = e0 -> interval_label e1 e2 e3 v = Q1).
  { intros v _ Hv. unfold interval_label.
    replace (4 * v <=? e1) with true by (symmetry; apply Z.leb_le; lia).
    reflexivity. }
  assert (Hhi : forall v, In v x -> 4 * v = e4 -> interval_label e1 e2 e3 v = Q4).
  { intros v _ Hv. unfold interval_label.
    replace (4 * v <=? e1) with false by (symmetry; apply Z.leb_gt; lia).
    replace (4 * v <=? e2) with false by (symmetry; apply Z.leb_gt; lia).
    replace (4 * v <=? e3) with false by (symmetry; apply Z.leb_gt; lia).
    reflexivity. }
  assert (H1 : forall i v, x !! i = Some v -> (forall w, In w x -> v <= w) ->
                 map (fun v => Some (interval_label e1 e2 e3 v)) x !! i
                 = Some (Some Q1)).
  { intros i v Hi Hmin. rewrite lookup_map, Hi. cbn. do 2 f_equal.
    pose proof (lookup_In _ _ _ Hi) as Hin. apply Hlo; [exact Hin|].
    pose proof (Hmin v0 Hv0). pose proof (Hr v Hin). lia. }
  assert (H4 : forall i v, x !! i = Some v -> (forall w, In w x -> w <= v) ->
                 map (fun v => Some (interval_label e1 e2 e3 v)) x !! i
                 = Some (Some Q4)).
  { intros i v Hi Hmax. rewrite lookup_map, Hi. cbn. do 2 f_equal.
    pose proof (lookup_In _ _ _ Hi) as Hin. apply Hhi; [exact Hin|].
    pose proof (Hmax w0 Hw0). pose proof (Hr v Hin). lia. }
  assert (P1 : (1 <= population Q1
                  (map (fun v => Some (interval_label e1 e2 e3 v)) x))%nat).
  { destruct (In_lookup _ _ Hv0) as [i Hi]. apply (population_pos _ i).
    rewrite lookup_map, Hi. cbn. do 2 f_equal. apply Hlo; [exact Hv0|lia]. }
  assert (P4 : (1 <= population Q4
                  (map (fun v => Some (interval_label e1 e2 e3 v)) x))%nat).
  { destruct (In_lookup _ _ Hw0) as [i Hi]. apply (population_pos _ i).
    rewrite lookup_map, Hi. cbn. do 2 f_equal. apply Hhi; [exact Hw0|lia]. }
  split; [exact H1|]. split; [exact H4|]. split; [exact P1|].
  split; [exact P4|]. split; [|apply buckets_le].
  unfold buckets, labels. cbn [List.filter].
  replace (0 <? population Q1 _)%nat with true
    by (symmetry; apply Nat.ltb_lt; lia).
  replace (0 <? population Q4 _)%nat with true
    by (symmetry; apply Nat.ltb_lt; lia).
  repeat match goal with
  | |- context [if ?b then _ else _] => destruct b
  end; simpl; lia.
Qed.

(** X12. On a table whose five edges of [total_games_played] are not
    pairwise distinct, both bucketing stages raise [ValueError] and write
    nothing: the batch stage for the repeated edge, the dashboard's, which
    asks for repeated edges to be dropped, for its four labels no longer
    fitting the edges left. *)
Theorem bucketing_raises_on_ties (obs : bool) (df : DataFrame F)
    (x : list Z) :
  columns df !! "total_games_played" = Some (Ints x) ->
  ~ NoDup (quartile_edges x) ->
  Main.user_segmentation obs df
  = Raise (ValueError "Bin edges must be unique")
  /\ MatchBingo.quartile_summary df
     = Raise (ValueError
                "Bin labels must be one fewer than the number of bin edges").
Proof.
  intros Hx Hdup. destruct (qcut_tied x Hdup) as [H1 H2].
  rewrite user_segmentation_unfold, quartile_summary_unfold, Hx.
  cbn [as_ints]. rewrite H1, H2. split; reflexivity.
Qed.

(** X13. On a table in which all rows have the same number of games
    played, a table of one row among them, both bucketing stages raise
    [ValueError]. *)
Theorem constant_column_raises (obs : bool) (df : DataFrame F)
    (x : list Z) :
  columns df !! "total_games_played" = Some (Ints x) ->
  (forall v w, In v x -> In w x -> v = w) ->
  Main.user_segmentation obs df
  = Raise (ValueError "Bin edges must be unique")
  /\ MatchBingo.quartile_summary df
     = Raise (ValueError
                "Bin labels must be one fewer than the number of bin edges").
Proof.
  intros Hx Hconst.
  assert (Hdup : ~ NoDup (quartile_edges x)).
  { intros Hnd.
    destruct (quartile_edges_strict x Hnd)
      as (e0 & e1 & e2 & e3 & e4 & _ & ? & ? & ? & ? & _
          & (v0 & Hv0 & ->) & (w0 & Hw0 & ->)).
    pose proof (Hconst v0 w0 Hv0 Hw0). lia. }
  destruct (qcut_tied x Hdup) as [H1 H2].
  rewrite user_segmentation_unfold, quartile_summary_unfold, Hx.
  cbn [as_ints]. rewrite H1, H2. split; reflexivity.
Qed.

End BucketOrder.

Lemma filter_perm {A} (p : A -> bool) (l l' : list A) :
  Permutation l l' -> Permutation (List.filter p l) (List.filter p l').
Proof.
  induction 1 as [|x l l' _ IH|x y l|l l' l'' _ IH1 _ IH2]; cbn [List.filter].
  - constructor.
  - destruct (p x); [constructor|]; exact IH.
  - destruct (p x), (p y); try reflexivity. apply perm_swap.
  - etransitivity; eassumption.
Qed.

Section BucketRowOrder.
Context {F : Type} `{Float64 F}.

Lemma derived_inputs (as_of_ts : Timestamp) (file : list (UserRecord F)) :
  columns (batch_derived file) !! "total_games_played"
    = Some (Ints (map total_games_played file))
  /\ columns (batch_derived file) !! "total_deposit"
     = Some (Floats (map total_deposit file))
  /\ columns (app_derived as_of_ts file) !! "total_games_played"
     = Some (Ints (map total_games_played file))
  /\ columns (app_derived as_of_ts file) !! "total_deposit"
     = Some (Floats (map total_deposit file)).
Proof.
  unfold batch_derived, app_derived, read_file. lookup_columns.
  repeat split; reflexivity.
Qed.

Lemma members_map {A} (q : label) (f : A -> option label) (d : A -> F)
    (l : list A) :
  members q (map f l) (map d l)
  = map d (List.filter (fun a => bool_decide (f a = Some q)) l).
Proof.
  unfold members. induction l as [|a l IH]; [reflexivity|].
  cbn [map zip_with List.filter fst].
  destruct (bool_decide (f a = Some q)); cbn [map snd]; rewrite IH; reflexivity.
Qed.

(** X14. The bucket of a record depends on its games played and on the
    file as a whole, not on the position of its row: for a file with
    distinct edges, its games played within [in_float_range], there is one
    map from games played to buckets that both stages follow on every
    reordering of the file. *)
Theorem buckets_row_order (obs : bool) (as_of_ts : Timestamp)
    (file file' : list (UserRecord F)) :
  in_float_range (map total_games_played file) = true ->
  Permutation file file' ->
  NoDup (quartile_edges (map total_games_played file)) ->
  exists bucket : Z -> option label,
    writes_buckets (Main.user_segmentation obs) "games_played_quartile"
      (batch_derived file) (map (fun u => bucket (total_games_played u)) file)
    /\ writes_buckets (Main.user_segmentation obs) "games_played_quartile"
         (batch_derived file')
         (map (fun u => bucket (total_games_played u)) file')
    /\ writes_buckets MatchBingo.quartile_summary "games_quartile"
         (app_derived as_of_ts file)
         (map (fun u => bucket (total_games_played u)) file)
    /\ writes_buckets MatchBingo.quartile_summary "games_quartile"
         (app_derived as_of_ts file')
         (map (fun u => bucket (total_games_played u)) file').
Proof.
  intros _ Hp Hnd.
  exists (bucket_of (quartile_edges (map total_games_played file))).
  pose proof (quartile_edges_perm _ _ (Permutation_map total_games_played Hp))
    as He.
  assert (Hnd' : NoDup (quartile_edges (map total_games_played file')))
    by (rewrite <- He; exact Hnd).
  destruct (derived_inputs as_of_ts file) as (G1 & D1 & G2 & D2).
  destruct (derived_inputs as_of_ts file') as (G1' & D1' & G2' & D2').
  destruct (stages_write_buckets obs _ _ _ _ G1 D1 eq_refl Hnd) as [B1 _].
  destruct (stages_write_buckets obs _ _ _ _ G2 D2 eq_refl Hnd) as [_ B2].
  destruct (stages_write_buckets obs _ _ _ _ G1' D1' eq_refl Hnd') as [B1' _].
  destruct (stages_write_buckets obs _ _ _ _ G2' D2' eq_refl Hnd') as [_ B2'].
  rewrite map_map in B1, B2, B1', B2'. rewrite <- He in B1', B2'.
  auto.
Qed.
End BucketRowOrder.

Lemma summary_perm_exact (obs : bool) (f : UserRecord xnum -> option label)
    (file file' : list (UserRecord xnum)) :
  Permutation file file' ->
  groupby_mean obs (map f file) (map total_deposit file)
  = groupby_mean obs (map f file') (map total_deposit file').
Proof.
  intros Hp. rewrite !groupby_mean_members_exact.
  induction labels as [|q l IH]; [reflexivity|].
  cbn [omap list_omap]. cbn [omap list_omap] in IH. rewrite IH.
  rewrite !members_map.
  assert (Hm : Permutation
            (map total_deposit (List.filter (fun a => bool_decide (f a = Some q)) file))
            (map total_deposit (List.filter (fun a => bool_decide (f a = Some q)) file')))
    by (apply Permutation_map, filter_perm, Hp).
  rewrite (Permutation_length Hm), (mean_of_exact_perm _ _ Hm). reflexivity.
Qed.

(** X15. In exact arithmetic the quartile summary of either stage, or the
    exception it raises, is the same for every reordering of the rows of
    the file. *)
Theorem quartile_summary_row_order_exact (obs : bool) (as_of_ts : Timestamp)
    (file file' : list (UserRecord xnum)) :
  Permutation file file' ->
  value (Main.user_segmentation obs) (batch_derived file)
  = value (Main.user_segmentation obs) (batch_derived file')
  /\ value MatchBingo.quartile_summary (app_derived as_of_ts file)
     = value MatchBingo.quartile_summary (app_derived as_of_ts file').
Proof.
  intros Hp. unfold value.
  rewrite !user_segmentation_unfold, !quartile_summary_unfold.
  destruct (derived_inputs as_of_ts file) as (G1 & D1 & G2 & D2).
  destruct (derived_inputs as_of_ts file') as (G1' & D1' & G2' & D2').
  rewrite G1, D1, G2, D2, G1', D1', G2', D2'. cbn [as_ints as_floats].
  pose proof (quartile_edges_perm _ _ (Permutation_map total_games_played Hp))
    as He.
  destruct (decide (NoDup (quartile_edges (map total_games_played file))))
    as [Hnd|Hnd].
  - assert (Hnd' : NoDup (quartile_edges (map total_games_played file')))
      by (rewrite <- He; exact Hnd).
    rewrite !(qcut_distinct_edges _ _ Hnd), !(qcut_distinct_edges _ _ Hnd').
    rewrite <- He, !map_map.
    rewrite !(summary_perm_exact _ _ _ _ Hp). split; reflexivity.
  - assert (Hnd' : ~ NoDup (quartile_edges (map total_games_played file')))
      by (rewrite <- He; exact Hnd).
    destruct (qcut_tied _ Hnd) as [-> ->].
    destruct (qcut_tied _ Hnd') as [-> ->]. split; reflexivity.
Qed.

(** The ten customers are bucketed by the batch stage. *)
Lemma ten_users_bucketing :
  bucketing (batch_derived ten_users) (map total_games_played ten_users)
    ten_users_buckets.
Proof.
  assert (Hnd : NoDup (quartile_edges (map total_games_played ten_users))).
  { apply (bool_decide_unpack _). vm_compute. exact I. }
  destruct (derived_inputs 0 ten_users) as (G & D & _ & _).
  destruct (stages_write_buckets false _ _ _ _ G D eq_refl Hnd) as [B _].
  split; [exact G|]. left. exists false.
  assert (E : map (bucket_of (quartile_edges (map total_games_played ten_users)))
                  (map total_games_played ten_users)
              = ten_users_buckets) by (vm_compute; reflexivity).
  rewrite <- E. exact B.
Qed.


Lemma buckets_monotone_witness :
  bucketing (batch_derived ten_users) (map total_games_played ten_users)
    ten_users_buckets
  /\ map total_games_played ten_users !! 1%nat = Some 1
  /\ map total_games_played ten_users !! 3%nat = Some 9
  /\ ten_users_buckets !! 1%nat = Some (Some Q1)
  /\ ten_users_buckets !! 3%nat = Some (Some Q4)
  /\ (1 <= 9 -> (bucket_rank (Some Q1) <= bucket_rank (Some Q4))%nat)
  /\ (1 = 9 -> Some Q1 = Some Q4).
Proof.
  split; [exact ten_users_bucketing|].
  repeat (split; [reflexivity|]).
  exact (buckets_monotone _ _ _ 1 3 1 9 (Some Q1) (Some Q4)
           ten_users_bucketing eq_refl eq_refl eq_refl eq_refl).
Defined.

Lemma extreme_buckets_witness :
  bucketing (batch_derived ten_users) (map total_games_played ten_users)
    ten_users_buckets
  /\ (forall i v, map total_games_played ten_users !! i = Some v ->
        (forall w, In w (map total_games_played ten_users) -> v <= w) ->
        ten_users_buckets !! i = Some (Some Q1))
  /\ (forall i v, map total_games_played ten_users !! i = Some v ->
        (forall w, In w (map total_games_played ten_users) -> w <= v) ->
        ten_users_buckets !! i = Some (Some Q4))
  /\ (1 <= population Q1 ten_users_buckets)%nat
  /\ (1 <= population Q4 ten_users_buckets)%nat
  /\ (2 <= buckets ten_users_buckets <= 4)%nat.
Proof.
  split; [exact ten_users_bucketing|].
  exact (extreme_buckets _ _ _ ten_users_bucketing).
Defined.

Lemma bucketing_raises_on_ties_witness :
  columns (batch_derived tied_users) !! "total_games_played"
    = Some (Ints [1; 1; 1; 1; 2])
  /\ ~ NoDup (quartile_edges [1; 1; 1; 1; 2])
  /\ Main.user_segmentation true (batch_derived tied_users)
     = Raise (ValueError "Bin edges must be unique")
  /\ MatchBingo.quartile_summary (batch_derived tied_users)
     = Raise (ValueError
                "Bin labels must be one fewer than the number of bin edges").
Proof.
  assert (Hx : columns (batch_derived tied_users) !! "total_games_played"
               = Some (Ints [1; 1; 1; 1; 2])) by (vm_compute; reflexivity).
  assert (Hdup : ~ NoDup (quartile_edges [1; 1; 1; 1; 2])).
  { intros Hnd. apply (bool_decide_pack _) in Hnd. vm_compute in Hnd.
    exact Hnd. }
  split; [exact Hx|]. split; [exact Hdup|].
  exact (bucketing_raises_on_ties true _ _ Hx Hdup).
Defined.

Lemma constant_column_raises_witness :
  columns (batch_derived same_day_user) !! "total_games_played"
    = Some (Ints [5])
  /\ (forall v w, In v [5] -> In w [5] -> v = w)
  /\ Main.user_segmentation false (batch_derived same_day_user)
     = Raise (ValueError "Bin edges must be unique")
  /\ MatchBingo.quartile_summary (batch_derived same_day_user)
     = Raise (ValueError
                "Bin labels must be one fewer than the number of bin edges").
Proof.
  assert (Hx : columns (batch_derived same_day_user) !! "total_games_played"
               = Some (Ints [5])) by (vm_compute; reflexivity).
  assert (Hc : forall v w : Z, In v [5] -> In w [5] -> v = w).
  { intros v w [<-|[]] [<-|[]]. reflexivity. }
  split; [exact Hx|]. split; [exact Hc|].
  exact (constant_column_raises false _ _ Hx Hc).
Defined.

Lemma buckets_row_order_witness :
  in_float_range (map total_games_played ten_users) = true
  /\ Permutation ten_users (rev ten_users)
  /\ NoDup (quartile_edges (map total_games_played ten_users))
  /\ exists bucket : Z -> option label,
      writes_buckets (Main.user_segmentation false) "games_played_quartile"
        (batch_derived ten_users)
        (map (fun u => bucket (total_games_played u)) ten_users)
      /\ writes_buckets (Main.user_segmentation false)
           "games_played_quartile" (batch_derived (rev ten_users))
           (map (fun u => bucket (total_games_played u)) (rev ten_users))
      /\ writes_buckets MatchBingo.quartile_summary "games_quartile"
           (app_derived (day 90) ten_users)
           (map (fun u => bucket (total_games_played u)) ten_users)
      /\ writes_buckets MatchBingo.quartile_summary "games_quartile"
           (app_derived (day 90) (rev ten_users))
           (map (fun u => bucket (total_games_played u)) (rev ten_users)).
Proof.
  assert (Hp : Permutation ten_users (rev ten_users))
    by apply Permutation_rev.
  assert (Hnd : NoDup (quartile_edges (map total_games_played ten_users))).
  { apply (bool_decide_unpack _). vm_compute. exact I. }
  split; [reflexivity|]. split; [exact Hp|]. split; [exact Hnd|].
  exact (buckets_row_order false (day 90) ten_users (rev ten_users)
           eq_refl Hp Hnd).
Defined.

Lemma quartile_summary_row_order_exact_witness :
  Permutation two_users_exact two_users_exact_swapped
  /\ value (Main.user_segmentation false) (batch_derived two_users_exact)
     = value (Main.user_segmentation false)
         (batch_derived two_users_exact_swapped)
  /\ value MatchBingo.quartile_summary
       (app_derived (day 90) two_users_exact)
     = value MatchBingo.quartile_summary
         (app_derived (day 90) two_users_exact_swapped).
Proof.
  assert (Hp : Permutation two_users_exact two_users_exact_swapped)
    by apply perm_swap.
  split; [exact Hp|].
  exact (quartile_summary_row_order_exact false (day 90) _ _ Hp).
Defined.
